(** * A cloud-init seed image builder: shallow embedding and verification

    The development embeds [makeCloudInitIso] of
    [extensions/models/cloud_init_iso.ts] together with the ISO 9660
    parsing helpers of its test suite, and proves the layout, encoding and
    round-trip properties of the images it produces.

    JavaScript numbers that hold integers are modelled by [Z] (values that
    flow through bit operations) or [nat] (lengths, offsets and block
    addresses); a [Uint8Array] is a [list Z] of bytes; a string is the list
    of its UTF-16 code units. *)

From Stdlib Require Import ZArith Lia String Ascii.
From stdpp Require Import base list.

Local Open Scope Z_scope.

(** ** The JavaScript operations the builder relies on *)

Module JS.

(** [ToInt32]: the operands of [&], [|], [<<] and [>>] are first wrapped
    into the signed 32-bit range. *)
Definition ToInt32 (v : Z) : Z := (v + 2 ^ 31) mod 2 ^ 32 - 2 ^ 31.

(** [x >>> 0] *)
Definition ToUint32 (v : Z) : Z := v mod 2 ^ 32.

(** [a & b] *)
Definition band (a b : Z) : Z := Z.land (ToInt32 a) (ToInt32 b).

(** [a | b] *)
Definition bor (a b : Z) : Z := Z.lor (ToInt32 a) (ToInt32 b).

(** [a >> k] (sign-propagating) *)
Definition sar (a k : Z) : Z := Z.shiftr (ToInt32 a) (k mod 32).

(** [a << k] *)
Definition shl (a k : Z) : Z := ToInt32 (Z.shiftl (ToInt32 a) (k mod 32)).

(** [Math.ceil(n / d)] on non-negative integers *)
Definition ceil_div (n d : nat) : nat :=
  (n / d + (if (n mod d =? 0)%nat then 0 else 1))%nat.

(** [a || b] on numbers: [0] is the falsy one *)
Definition or_else (a b : nat) : nat := if (a =? 0)%nat then b else a.

(** Calls that may throw return a [result]. The only exception the
    builder can meet is the [RangeError] of [TypedArray.prototype.set]. *)
Inductive result (A : Type) : Type :=
| Ok (a : A)
| RangeError.
Arguments Ok {A} a.
Arguments RangeError {A}.

Definition bind {A B} (m : result A) (k : A -> result B) : result B :=
  match m with
  | Ok a => k a
  | RangeError => RangeError
  end.

(** A counted [for (let i = start; ...; i++)] loop over a state. *)
Fixpoint for_loop {St} (n : nat) (i : nat)
    (body : nat -> St -> result St) (s : St) : result St :=
  match n with
  | O => Ok s
  | S n' => bind (body i s) (for_loop n' (i + 1)%nat body)
  end.

(** A [for (const x of xs)] loop over a state. *)
Fixpoint for_of {X St} (xs : list X)
    (body : X -> St -> result St) (s : St) : result St :=
  match xs with
  | [] => Ok s
  | x :: xs' => bind (body x s) (for_of xs' body)
  end.

(** *** Uint8Array *)

Abbreviation Uint8Array := (list Z) (only parsing).

Definition ToUint8 (v : Z) : Z := v mod 256.

(** [new Uint8Array(n)]: zero-filled *)
Definition alloc (n : nat) : Uint8Array := replicate n 0.

(** [new Uint8Array([v0, v1, ...])] *)
Definition of_list (vs : list Z) : Uint8Array := ToUint8 <$> vs.

(** [a[i] = v]: a store outside the array is ignored *)
Definition store (a : Uint8Array) (i : nat) (v : Z) : Uint8Array :=
  <[i := ToUint8 v]> a.

(** [a[i]] read into a bit operation, where [undefined] counts as [0] *)
Definition get (a : Uint8Array) (i : nat) : Z := default 0 (a !! i).

(** [a.set(src, off)]: throws when [src] does not fit *)
Definition set (a src : Uint8Array) (off : nat) : result Uint8Array :=
  if Nat.leb (off + length src) (length a)
  then Ok (take off a ++ src ++ drop (off + length src) a)
  else RangeError.

(** [a.fill(v, s, e)]: both ends are clamped to the array *)
Definition fill (a : Uint8Array) (v : Z) (s e : nat) : Uint8Array :=
  let k := Nat.min s (length a) in
  let final := Nat.min e (length a) in
  take k a ++ replicate (final - k) (ToUint8 v) ++ drop (Nat.max k final) a.

(** [a.subarray(b, e)] *)
Definition subarray (a : Uint8Array) (b e : nat) : Uint8Array :=
  take (e - b) (drop b a).

(** *** Strings and [TextEncoder] *)

(** A string is its sequence of UTF-16 code units. *)
Abbreviation jsstring := (list Z) (only parsing).

(** An ASCII literal as a string. *)
Definition lit (s : string) : jsstring :=
  (fun c => Z.of_nat (nat_of_ascii c)) <$> list_ascii_of_string s.

Definition is_high_surrogate (c : Z) : bool := (55296 <=? c) && (c <=? 56319).
Definition is_low_surrogate (c : Z) : bool := (56320 <=? c) && (c <=? 57343).

(** UTF-8 bytes of one scalar value. *)
Definition utf8_bytes (c : Z) : list Z :=
  if c <? 128 then [c]
  else if c <? 2048 then [192 + c / 64; 128 + c mod 64]
  else if c <? 65536 then
    [224 + c / 4096; 128 + (c / 64) mod 64; 128 + c mod 64]
  else
    [240 + c / 262144; 128 + (c / 4096) mod 64;
     128 + (c / 64) mod 64; 128 + c mod 64].

(** [new TextEncoder().encode(s)]: surrogate pairs are combined, a lone
    surrogate is replaced by U+FFFD. *)
Fixpoint encode (s : jsstring) : Uint8Array :=
  match s with
  | [] => []
  | c :: rest =>
    if is_high_surrogate c then
      match rest with
      | d :: rest' =>
        if is_low_surrogate d
        then utf8_bytes (65536 + (c - 55296) * 1024 + (d - 56320))
               ++ encode rest'
        else utf8_bytes 65533 ++ encode rest
      | [] => utf8_bytes 65533
      end
    else if is_low_surrogate c then utf8_bytes 65533 ++ encode rest
    else utf8_bytes c ++ encode rest
  end.

End JS.

Import JS.

Declare Scope js_scope.
Notation "'do' x <- m ; k" := (bind m (fun x => k))
  (at level 10, x name, m at level 100, k at level 200) : js_scope.
Local Open Scope js_scope.

(** ** The builder: [extensions/models/cloud_init_iso.ts] *)

Module Iso.

(** [const S = 2048] *)
Definition sector_size : nat := 2048.

(** Little-endian then big-endian bytes of a 32-bit field. *)
Definition u32b (v : Z) : Uint8Array :=
  of_list
    [band v 255; band (sar v 8) 255; band (sar v 16) 255; band (sar v 24) 255;
     band (sar v 24) 255; band (sar v 16) 255; band (sar v 8) 255; band v 255].

(** Little-endian then big-endian bytes of a 16-bit field. *)
Definition u16b (v : Z) : Uint8Array :=
  of_list [band v 255; band (sar v 8) 255; band (sar v 8) 255; band v 255].

(** One directory record. The cursor [i] of the source is threaded
    through the stores. *)
Definition dirRecord (nameBytes : Uint8Array) (isDir : bool)
    (extentLba dataLen : Z) : result Uint8Array :=
  let nl := length nameBytes in
  let rec := alloc (33 + nl + (if (nl mod 2 =? 0)%nat then 1 else 0)) in
  let i := 0%nat in
  let rec := store rec i (Z.of_nat (length rec)) in let i := (i + 1)%nat in
  let rec := store rec i 0 in let i := (i + 1)%nat in
  do rec <- set rec (u32b extentLba) i; let i := (i + 8)%nat in
  do rec <- set rec (u32b dataLen) i; let i := (i + 8)%nat in
  let rec := store rec i 126 in let i := (i + 1)%nat in
  let rec := store rec i 2 in let i := (i + 1)%nat in
  let rec := store rec i 21 in let i := (i + 1)%nat in
  let rec := store rec i 0 in let i := (i + 1)%nat in
  let rec := store rec i 0 in let i := (i + 1)%nat in
  let rec := store rec i 0 in let i := (i + 1)%nat in
  let rec := store rec i 0 in let i := (i + 1)%nat in
  let rec := store rec i (if isDir then 2 else 0) in let i := (i + 1)%nat in
  let rec := store rec i 0 in let i := (i + 1)%nat in
  let rec := store rec i 0 in let i := (i + 1)%nat in
  do rec <- set rec (u16b 1) i; let i := (i + 4)%nat in
  let rec := store rec i (Z.of_nat nl) in let i := (i + 1)%nat in
  do rec <- set rec nameBytes i;
  Ok rec.

(** The file table: name and encoded content, already in name order. *)
Definition files_of (userData metaData : jsstring)
    : list (jsstring * Uint8Array) :=
  [ (lit "META-DATA", encode metaData);
    (lit "USER-DATA", encode userData) ].

(** The extent loop: [extents.push(lba); lba += Math.ceil(len / S) || 1]. *)
Fixpoint extents_loop (files : list (jsstring * Uint8Array))
    (lba : nat) (extents : list nat) : nat * list nat :=
  match files with
  | [] => (lba, extents)
  | (_, data) :: files' =>
    extents_loop files'
      (lba + or_else (ceil_div (length data) sector_size) 1)%nat
      (extents ++ [lba])
  end.

(** [extents[i]] and [files[i]]. Both loops run [i] below [files.length],
    and [extents] is as long as [files], so the defaults are never used. *)
Definition extent_at (extents : list nat) (i : nat) : nat :=
  default 0%nat (extents !! i).
Definition file_name (files : list (jsstring * Uint8Array)) (i : nat)
    : jsstring := default [] (fst <$> files !! i).
Definition file_data (files : list (jsstring * Uint8Array)) (i : nat)
    : Uint8Array := default [] (snd <$> files !! i).

(** The root directory sector: dot, dotdot, then one record per file. *)
Definition build_rootDir (files : list (jsstring * Uint8Array))
    (extents : list nat) (dotRec dotdotRec : Uint8Array)
    : result Uint8Array :=
  let rootDir := alloc sector_size in
  let doff := 0%nat in
  do rootDir <- set rootDir dotRec doff;
  let doff := (doff + length dotRec)%nat in
  do rootDir <- set rootDir dotdotRec doff;
  let doff := (doff + length dotdotRec)%nat in
  do st <- for_loop (length files) 0
    (fun i '(rootDir, doff) =>
       do rec <- dirRecord (encode (file_name files i)) false
                   (Z.of_nat (extent_at extents i))
                   (Z.of_nat (length (file_data files i)));
       do rootDir <- set rootDir rec doff;
       Ok (rootDir, (doff + length rec)%nat))
    (rootDir, doff);
  Ok (fst st).

(** The primary volume descriptor. *)
Definition build_pvd (totalSectors : nat) (dotRec : Uint8Array)
    : result Uint8Array :=
  let pvd := alloc sector_size in
  let pvd := store pvd 0 1 in
  do pvd <- set pvd (encode (lit "CD001")) 1;
  let pvd := store pvd 6 1 in
  let pvd := fill pvd 32 8 40 in
  do pvd <- set pvd (encode (lit "CIDATA")) 40;
  let pvd := fill pvd 32 46 72 in
  do pvd <- set pvd (u32b (Z.of_nat totalSectors)) 80;
  do pvd <- set pvd (u16b 1) 120;
  do pvd <- set pvd (u16b 1) 124;
  do pvd <- set pvd (u16b (Z.of_nat sector_size)) 128;
  do pvd <- set pvd (u32b 0) 132;
  do pvd <- set pvd dotRec 156;
  let pvd := fill pvd 32 190 813 in
  let d16 := encode (lit "0000000000000000") in
  do pvd <- for_of [813; 830; 847; 864]%nat
    (fun off pvd =>
       do pvd <- set pvd d16 off;
       Ok (store pvd (off + 16) 0))
    pvd;
  let pvd := store pvd 881 1 in
  Ok pvd.

(** The volume descriptor set terminator. *)
Definition build_vdst : result Uint8Array :=
  let vdst := alloc sector_size in
  let vdst := store vdst 0 255 in
  do vdst <- set vdst (encode (lit "CD001")) 1;
  let vdst := store vdst 6 1 in
  Ok vdst.

Definition makeCloudInitIso (userData metaData : jsstring)
    : result Uint8Array :=
  let files := files_of userData metaData in
  let '(lba, extents) := extents_loop files 19 [] in
  let totalSectors := lba in
  do dotRec <- dirRecord (of_list [0]) true 18 (Z.of_nat sector_size);
  do dotdotRec <- dirRecord (of_list [1]) true 18 (Z.of_nat sector_size);
  do rootDir <- build_rootDir files extents dotRec dotdotRec;
  do pvd <- build_pvd totalSectors dotRec;
  do vdst <- build_vdst;
  let iso := alloc (totalSectors * sector_size) in
  do iso <- set iso pvd (16 * sector_size);
  do iso <- set iso vdst (17 * sector_size);
  do iso <- set iso rootDir (18 * sector_size);
  for_loop (length files) 0
    (fun i iso => set iso (file_data files i) (extent_at extents i * sector_size))
    iso.

End Iso.

Import Iso.

(** ** The reader: the ISO 9660 parsing helpers of the test suite *)

Module Reader.

Definition SECTOR : nat := 2048.

Definition u32le (buf : Uint8Array) (off : nat) : Z :=
  ToUint32
    (bor (bor (bor (get buf off) (shl (get buf (off + 1)) 8))
              (shl (get buf (off + 2)) 16))
         (shl (get buf (off + 3)) 24)).

Definition u16le (buf : Uint8Array) (off : nat) : Z :=
  bor (get buf off) (shl (get buf (off + 1)) 8).

Definition u16be (buf : Uint8Array) (off : nat) : Z :=
  bor (shl (get buf off) 8) (get buf (off + 1)).

(** The big-endian companion of [u32le], for the second half of a
    both-endian 32-bit field. *)
Definition u32be (buf : Uint8Array) (off : nat) : Z :=
  ToUint32
    (bor (bor (bor (shl (get buf off) 24) (shl (get buf (off + 1)) 16))
              (shl (get buf (off + 2)) 8))
         (get buf (off + 3))).

(** A parsed directory entry. The name is kept as the raw bytes that the
    source hands to [TextDecoder]; [recLen] and [nameLen] are the two
    bytes the source reads while walking and does not store. *)
Record DirEntry := mkDirEntry {
  name : Uint8Array;
  extentLba : Z;
  dataLen : Z;
  isDir : bool;
  recLen : Z;
  nameLen : Z
}.

(** The body of the walking loop, for a record of length [recLen] that
    starts at [off]. *)
Definition read_entry (sector : Uint8Array) (off : nat) (recLen : Z)
    : DirEntry :=
  let extentLba := u32le sector (off + 2) in
  let dataLen := u32le sector (off + 10) in
  let flags := get sector (off + 25) in
  let nameLen := get sector (off + 32) in
  let name := subarray sector (off + 33) (off + 33 + Z.to_nat nameLen) in
  mkDirEntry name extentLba dataLen (negb (band flags 2 =? 0)) recLen nameLen.

(** [while (off < SECTOR) { ...; if (recLen === 0) break; ...; off += recLen }].
    [None] stands for running out of fuel and for a read past the end of
    the sector, which the images of the builder never cause. *)
Fixpoint parse_loop (fuel : nat) (sector : Uint8Array) (off : nat)
    (entries : list DirEntry) : option (list DirEntry) :=
  match fuel with
  | O => None
  | S fuel' =>
    if negb (Nat.ltb off SECTOR) then Some entries
    else
      match sector !! off with
      | None => None
      | Some recLen =>
        if recLen =? 0 then Some entries
        else parse_loop fuel' sector (off + Z.to_nat recLen)
               (entries ++ [read_entry sector off recLen])
      end
  end.

(** Every turn of the loop advances [off] by at least one byte, so
    [SECTOR + 1] turns are enough. *)
Definition parseRootDir (iso : Uint8Array) (lba : nat)
    : option (list DirEntry) :=
  let sector := subarray iso (lba * SECTOR) ((lba + 1) * SECTOR) in
  parse_loop (SECTOR + 1) sector 0 [].

(** The bytes that [fileContent] decodes. *)
Definition fileContent (iso : Uint8Array) (entry : DirEntry) : Uint8Array :=
  subarray iso (Z.to_nat (extentLba entry) * SECTOR)
    (Z.to_nat (extentLba entry) * SECTOR + Z.to_nat (dataLen entry)).

(** [parseRootDir(iso, 18).find((e) => e.name === n)] *)
Definition find_entry (iso : Uint8Array) (n : Uint8Array)
    : option DirEntry :=
  match parseRootDir iso 18 with
  | Some entries => List.find (fun e => bool_decide (name e = n)) entries
  | None => None
  end.

(** Look a file up by name and read its content. *)
Definition extract_file (iso : Uint8Array) (n : Uint8Array)
    : option Uint8Array :=
  fileContent iso <$> find_entry iso n.

End Reader.

Import Reader.

(** ** Closed forms of the structures, used to state the layout *)

Module Shape.

(** The bytes of a directory record. *)
Definition record_bytes (nameBytes : Uint8Array) (isDir : bool)
    (extentLba dataLen : Z) : Uint8Array :=
  let nl := length nameBytes in
  let pad := if (nl mod 2 =? 0)%nat then 1%nat else 0%nat in
  [Z.of_nat (33 + nl + pad) mod 256; 0]
    ++ u32b extentLba ++ u32b dataLen
    ++ [126; 2; 21; 0; 0; 0; 0; if isDir then 2 else 0; 0; 0]
    ++ u16b 1 ++ [Z.of_nat nl mod 256]
    ++ nameBytes ++ replicate pad 0.

(** The entry that the reader makes of such a record. *)
Definition entry_of (nameBytes : Uint8Array) (isDir : bool)
    (extentLba dataLen : Z) : DirEntry :=
  mkDirEntry nameBytes (extentLba mod 2 ^ 32) (dataLen mod 2 ^ 32) isDir
    (Z.of_nat (length (record_bytes nameBytes isDir extentLba dataLen)))
    (Z.of_nat (length nameBytes)).

Definition dot_bytes : Uint8Array :=
  record_bytes (of_list [0]) true 18 (Z.of_nat sector_size).

Definition dotdot_bytes : Uint8Array :=
  record_bytes (of_list [1]) true 18 (Z.of_nat sector_size).

(** Sectors taken by a payload of [n] bytes. *)
Definition sectors_of (n : nat) : nat := or_else (ceil_div n sector_size) 1.

(** The root directory sector for payloads [md] (meta-data) and [ud]
    (user-data). *)
Definition rootDir_bytes (md ud : Uint8Array) : Uint8Array :=
  dot_bytes ++ dotdot_bytes
    ++ record_bytes (encode (lit "META-DATA")) false 19 (Z.of_nat (length md))
    ++ record_bytes (encode (lit "USER-DATA")) false
         (Z.of_nat (19 + sectors_of (length md))) (Z.of_nat (length ud))
    ++ replicate 1896 0.

(** The primary volume descriptor of a volume of [totalSectors] blocks. *)
Definition pvd_bytes (totalSectors : nat) : Uint8Array :=
  [1] ++ encode (lit "CD001") ++ [1; 0]
    ++ replicate 32 32
    ++ encode (lit "CIDATA") ++ replicate 26 32
    ++ replicate 8 0
    ++ u32b (Z.of_nat totalSectors)
    ++ replicate 32 0
    ++ u16b 1 ++ u16b 1 ++ u16b 2048
    ++ u32b 0
    ++ replicate 16 0
    ++ dot_bytes
    ++ replicate 623 32
    ++ (replicate 16 48 ++ [0]) ++ (replicate 16 48 ++ [0])
    ++ (replicate 16 48 ++ [0]) ++ (replicate 16 48 ++ [0])
    ++ [1]
    ++ replicate 1166 0.

Definition vdst_bytes : Uint8Array :=
  [255] ++ encode (lit "CD001") ++ [1] ++ replicate 2041 0.

(** A payload padded with zeros to whole sectors. *)
Definition padded (data : Uint8Array) : Uint8Array :=
  data ++ replicate (sectors_of (length data) * sector_size - length data) 0.

Definition total_sectors (md ud : Uint8Array) : nat :=
  (19 + sectors_of (length md) + sectors_of (length ud))%nat.

(** The whole image. *)
Definition iso_bytes (md ud : Uint8Array) : Uint8Array :=
  replicate (16 * sector_size) 0
    ++ pvd_bytes (total_sectors md ud)
    ++ vdst_bytes
    ++ rootDir_bytes md ud
    ++ padded md ++ padded ud.

End Shape.

Import Shape.

(** ** What the properties observe *)

Module Obs.

(** The sector at block address [lba]. *)
Definition sector (iso : Uint8Array) (lba : nat) : Uint8Array :=
  subarray iso (lba * SECTOR) ((lba + 1) * SECTOR).

(** [s.trimEnd()] on bytes that hold ASCII text padded with spaces. *)
Fixpoint trim_end (s : list Z) : list Z :=
  match s with
  | [] => []
  | c :: s' =>
    match trim_end s' with
    | [] => if c =? 32 then [] else [c]
    | t => c :: t
    end
  end.

(** Number of blocks of the image built from [userData] and [metaData]. *)
Definition image_sectors (userData metaData : jsstring) : nat :=
  fst (extents_loop (files_of userData metaData) 19 []).

(** [a < b] on strings: lexicographic on code units. *)
Fixpoint lex_lt (a b : jsstring) : bool :=
  match a, b with
  | _, [] => false
  | [], _ :: _ => true
  | x :: a', y :: b' => (x <? y) || ((x =? y) && lex_lt a' b')
  end.

(** Size and volume-space-size consistency of the image. *)
Definition size_consistent (userData metaData : jsstring) : Prop :=
  exists iso,
    makeCloudInitIso userData metaData = Ok iso
    /\ Z.of_nat (length iso) mod 2048 = 0
    /\ 16 * 2048 < Z.of_nat (length iso)
    /\ u32le (sector iso 16) 80 * 2048 = Z.of_nat (length iso).

(** Round trip: both files read back from the image are the encoded
    inputs. *)
Definition roundtrip (userData metaData : jsstring) : Prop :=
  exists iso,
    makeCloudInitIso userData metaData = Ok iso
    /\ extract_file iso (lit "USER-DATA") = Some (encode userData)
    /\ extract_file iso (lit "META-DATA") = Some (encode metaData).

(** The inputs of the end-to-end example. *)
Definition example_user : jsstring :=
  lit "#cloud-config" ++ [10] ++ lit "hostname: myvm" ++ [10].
Definition example_meta : jsstring := lit "instance-id: myvm" ++ [10].

(** The entries of the root directory that are files. *)
Definition file_entries (entries : list DirEntry) : list DirEntry :=
  List.filter (fun e => negb (isDir e)) entries.

(** The end-to-end example, for given recorded lengths of META-DATA and
    USER-DATA. *)
Definition example_directory (metaLen userLen : Z) : Prop :=
  exists iso entries,
    makeCloudInitIso example_user example_meta = Ok iso
    /\ parseRootDir iso 18 = Some entries
    /\ (fun e => (name e, dataLen e)) <$> file_entries entries
       = [(lit "META-DATA", metaLen); (lit "USER-DATA", userLen)]
    /\ Forall (fun e => 19 <= extentLba e) (file_entries entries)
    /\ Z.of_nat (length iso) mod 2048 = 0.

End Obs.

Import Obs.

(** ** The upload of the image: [extensions/models/unraid_vm_provision.ts] *)

Module Upload.






End Upload.

Import Upload.

(** ** The seed data of the provision method:
       [extensions/models/unraid_vm_provision.ts] *)

Module Provision.

(** [`#cloud-config\nhostname: ${name}\nusers: ...`] *)
Definition userData (name username sshPublicKey : jsstring) : jsstring :=
  lit "#cloud-config" ++ [10]
    ++ lit "hostname: " ++ name ++ [10]
    ++ lit "users:" ++ [10]
    ++ lit "  - name: " ++ username ++ [10]
    ++ lit "    ssh_authorized_keys:" ++ [10]
    ++ lit "      - " ++ sshPublicKey ++ [10]
    ++ lit "    sudo: ALL=(ALL) NOPASSWD:ALL" ++ [10]
    ++ lit "    shell: /bin/bash" ++ [10]
    ++ lit "package_update: true" ++ [10]
    ++ lit "packages:" ++ [10]
    ++ lit "  - qemu-guest-agent" ++ [10]
    ++ lit "runcmd:" ++ [10]
    ++ lit "  - systemctl enable qemu-guest-agent" ++ [10]
    ++ lit "  - systemctl start qemu-guest-agent" ++ [10].

(** [`instance-id: ${name}\nlocal-hostname: ${name}\n`] *)
Definition metaData (name : jsstring) : jsstring :=
  lit "instance-id: " ++ name ++ [10]
    ++ lit "local-hostname: " ++ name ++ [10].


End Provision.

(** ** Ranges of bytes and code units *)

Module Ranges.

Definition is_byte (b : Z) : bool := (0 <=? b) && (b <? 256).

Definition is_code_unit (c : Z) : bool := (0 <=? c) && (c <? 65536).

Definition is_ascii (c : Z) : bool := (0 <=? c) && (c <? 128).

End Ranges.

Import Ranges.

(** ** Strings the engine can hold *)

Module Engine.

(** The module runs on Deno, whose engine (V8) makes no string longer than
    [String::kMaxLength], 2^29 - 24 UTF-16 code units. *)
Definition max_string_length : Z := 536870888.

(** A string value as a caller can pass it: 16-bit code units, no more of
    them than the engine allows. *)
Definition is_string (s : jsstring) : bool :=
  forallb is_code_unit s && (Z.of_nat (length s) <=? max_string_length).

End Engine.

Import Engine.

(** ** Byte orders, in the words of the standard *)

Module Endian.

(** The little-endian encoding of [v] in [n] bytes: the [n] low bytes of
    [v], least significant first. *)
Fixpoint le_bytes (n : nat) (v : Z) : list Z :=
  match n with
  | O => []
  | S n' => v mod 256 :: le_bytes n' (v / 256)
  end.

(** The big-endian encoding: the same bytes, most significant first. *)
Definition be_bytes (n : nat) (v : Z) : list Z := reverse (le_bytes n v).

(** A both-endian field: the little-endian encoding immediately followed
    by the big-endian encoding of the same value. *)
Definition both_endian (n : nat) (v : Z) : list Z :=
  le_bytes n v ++ be_bytes n v.

(** The number a list of bytes stands for, least significant byte first
    and most significant byte first. *)
Fixpoint le_value (bs : list Z) : Z :=
  match bs with
  | [] => 0
  | b :: bs' => b + 256 * le_value bs'
  end.

Definition be_value (bs : list Z) : Z := le_value (reverse bs).

End Endian.

Import Endian.

(** * Proofs *)

(** ** The model at work *)

Section Runs.

Example encode_ascii_text : encode (lit "CD001") = [67; 68; 48; 48; 49].
Proof. reflexivity. Qed.

Example encode_three_bytes : encode [8364] = [226; 130; 172].
Proof. reflexivity. Qed.

Example encode_surrogate_pair : encode [55357; 56832] = [240; 159; 152; 128].
Proof. reflexivity. Qed.

Example encode_lone_surrogate : encode [56832; 97] = [239; 191; 189; 97].
Proof. reflexivity. Qed.

Example u32b_19 : u32b 19 = [19; 0; 0; 0; 0; 0; 0; 19].
Proof. reflexivity. Qed.

Example u32b_wraps : u32b (2 ^ 32 + 258) = [2; 1; 0; 0; 0; 0; 1; 2].
Proof. reflexivity. Qed.

Example set_out_of_range : set (alloc 4) [1; 2; 3] 2 = RangeError.
Proof. reflexivity. Qed.

Example dirRecord_dot :
  dirRecord (of_list [0]) true 18 2048
  = Ok [34; 0; 18; 0; 0; 0; 0; 0; 0; 18; 0; 8; 0; 0; 0; 0; 8; 0;
        126; 2; 21; 0; 0; 0; 0; 2; 0; 0; 1; 0; 0; 1; 1; 0].
Proof. reflexivity. Qed.

(** The image of "abc" / "de", evaluated and read back. *)
Example run_small :
  match makeCloudInitIso (lit "abc") (lit "de") with
  | Ok iso =>
    Some (Z.of_nat (length iso), parseRootDir iso 18,
          extract_file iso (lit "USER-DATA"),
          extract_file iso (lit "META-DATA"))
  | RangeError => None
  end
  = Some (43008,
          Some [ mkDirEntry [0] 18 2048 true 34 1;
                 mkDirEntry [1] 18 2048 true 34 1;
                 mkDirEntry (lit "META-DATA") 19 2 false 42 9;
                 mkDirEntry (lit "USER-DATA") 20 3 false 42 9 ],
          Some [97; 98; 99], Some [100; 101]).
Proof. vm_compute. reflexivity. Qed.

(** A payload of 3000 bytes spans two sectors. *)
Example run_two_sectors :
  match makeCloudInitIso (replicate 3000 120) (lit "instance-id: test") with
  | Ok iso =>
    Some (Z.of_nat (length iso) mod 2048,
          dataLen <$> find_entry iso (lit "USER-DATA"),
          extentLba <$> find_entry iso (lit "USER-DATA"),
          bool_decide (extract_file iso (lit "USER-DATA")
                       = Some (replicate 3000 120)))
  | RangeError => None
  end
  = Some (0, Some 3000, Some 20, true).
Proof. vm_compute. reflexivity. Qed.

End Runs.

(** ** Bit operations *)

Section Bits.

Lemma ToInt32_congr (v : Z) : exists k, ToInt32 v = v + 2 ^ 32 * k.
Proof.
  unfold ToInt32. exists (- ((v + 2 ^ 31) / 2 ^ 32)).
  pose proof (Z.div_mod (v + 2 ^ 31) (2 ^ 32) ltac:(lia)). lia.
Qed.

Lemma testbit_ToInt32 (v n : Z) :
  0 <= n < 32 -> Z.testbit (ToInt32 v) n = Z.testbit v n.
Proof.
  intros Hn. destruct (ToInt32_congr v) as [k ->].
  rewrite <- (Z.mod_pow2_bits_low (v + 2 ^ 32 * k) 32 n) by lia.
  rewrite <- (Z.mod_pow2_bits_low v 32 n) by lia.
  f_equal. rewrite Z.mul_comm. apply Z.mod_add. lia.
Qed.

Lemma testbit_bor (a b n : Z) :
  0 <= n < 32 -> Z.testbit (bor a b) n = Z.testbit a n || Z.testbit b n.
Proof.
  intros Hn. unfold bor. rewrite Z.lor_spec, !testbit_ToInt32 by lia.
  reflexivity.
Qed.

Lemma testbit_shl (b k n : Z) :
  0 <= k < 32 -> 0 <= n < 32 ->
  Z.testbit (shl b k) n = (k <=? n) && Z.testbit b (n - k).
Proof.
  intros Hk Hn. unfold shl.
  rewrite testbit_ToInt32, (Z.mod_small k 32), Z.shiftl_spec by lia.
  destruct (Z.leb_spec k n).
  - rewrite testbit_ToInt32 by lia. reflexivity.
  - rewrite Z.testbit_neg_r by lia. reflexivity.
Qed.

Lemma testbit_byte (v k j : Z) :
  0 <= k -> 0 <= j ->
  Z.testbit ((v / 2 ^ k) mod 256) j = (j <? 8) && Z.testbit v (j + k).
Proof.
  intros Hk Hj. change 256 with (2 ^ 8). destruct (Z.ltb_spec j 8).
  - rewrite Z.mod_pow2_bits_low, Z.div_pow2_bits by lia. reflexivity.
  - rewrite Z.mod_pow2_bits_high by lia. reflexivity.
Qed.

Lemma band_255 (x : Z) : band x 255 = x mod 256.
Proof.
  unfold band. change (ToInt32 255) with (Z.ones 8).
  rewrite Z.land_ones by lia. destruct (ToInt32_congr x) as [k ->].
  change (2 ^ 32) with (2 ^ 8 * 2 ^ 24).
  rewrite <- Z.mul_assoc, Z.mul_comm, Z.mod_add by lia. reflexivity.
Qed.

Lemma sar_byte (v k : Z) :
  0 <= k <= 24 -> band (sar v k) 255 = (v / 2 ^ k) mod 256.
Proof.
  intros Hk. rewrite band_255. unfold sar.
  rewrite (Z.mod_small k 32), Z.shiftr_div_pow2 by lia.
  apply Z.bits_inj'. intros n Hn.
  rewrite !testbit_byte by lia.
  destruct (Z.ltb_spec n 8); [|reflexivity].
  rewrite testbit_ToInt32 by lia. reflexivity.
Qed.

End Bits.

(** ** Both-endian fields *)

Section BothEndian.

Lemma u32b_bytes (v : Z) :
  u32b v =
    [v mod 256; (v / 2 ^ 8) mod 256; (v / 2 ^ 16) mod 256;
     (v / 2 ^ 24) mod 256; (v / 2 ^ 24) mod 256; (v / 2 ^ 16) mod 256;
     (v / 2 ^ 8) mod 256; v mod 256].
Proof.
  unfold u32b, of_list, ToUint8. cbn [fmap list_fmap].
  rewrite band_255, !sar_byte, !Z.mod_mod by lia. reflexivity.
Qed.

Lemma u16b_bytes (v : Z) :
  u16b v =
    [v mod 256; (v / 2 ^ 8) mod 256; (v / 2 ^ 8) mod 256; v mod 256].
Proof.
  unfold u16b, of_list, ToUint8. cbn [fmap list_fmap].
  rewrite band_255, !sar_byte, !Z.mod_mod by lia. reflexivity.
Qed.

Lemma length_u32b (v : Z) : length (u32b v) = 8%nat.
Proof. reflexivity. Qed.

Lemma length_u16b (v : Z) : length (u16b v) = 4%nat.
Proof. reflexivity. Qed.

Ltac bool_cases :=
  repeat match goal with
  | |- context [Z.leb ?a ?b] => destruct (Z.leb_spec a b)
  | |- context [Z.ltb ?a ?b] => destruct (Z.ltb_spec a b)
  end;
  cbn [andb orb]; try lia; rewrite ?orb_false_r; try reflexivity.

Ltac bits_of_bytes :=
  rewrite !testbit_bor, !testbit_shl by lia;
  repeat match goal with
  | |- context [Z.leb ?a ?b] => destruct (Z.leb_spec a b)
  end;
  cbn [andb orb]; rewrite !testbit_byte by lia;
  rewrite ?Z.sub_add, ?Z.add_0_r; bool_cases.

(** Little-endian combination of the four bytes of [v]. *)
Lemma combine_le32 (v : Z) :
  ToUint32
    (bor (bor (bor (v mod 256) (shl ((v / 2 ^ 8) mod 256) 8))
              (shl ((v / 2 ^ 16) mod 256) 16))
         (shl ((v / 2 ^ 24) mod 256) 24))
  = v mod 2 ^ 32.
Proof.
  unfold ToUint32. apply Z.bits_inj'. intros n Hn.
  rewrite <- (Z.div_1_r v) at 1. change 1 with (2 ^ 0) at 1.
  destruct (Z.ltb_spec n 32).
  - rewrite !Z.mod_pow2_bits_low by lia.
    bits_of_bytes.
  - rewrite !Z.mod_pow2_bits_high by lia. reflexivity.
Qed.

Lemma ToInt32_small (x : Z) : - 2 ^ 31 <= x < 2 ^ 31 -> ToInt32 x = x.
Proof. intros H. unfold ToInt32. rewrite Z.mod_small; lia. Qed.

Lemma testbit_byte_high (v k n : Z) :
  0 <= k -> 8 <= n -> Z.testbit ((v / 2 ^ k) mod 256) n = false.
Proof. intros Hk Hn. rewrite testbit_byte by lia. bool_cases. Qed.

Lemma testbit_shl8_high (v n : Z) :
  32 <= n -> Z.testbit (ToInt32 (shl ((v / 2 ^ 8) mod 256) 8)) n = false.
Proof.
  intros Hn.
  pose proof (Z.mod_pos_bound (v / 2 ^ 8) 256 ltac:(lia)) as Hb.
  unfold shl. rewrite (ToInt32_small (_ mod 256)) by lia.
  change (8 mod 32) with 8. rewrite Z.shiftl_mul_pow2 by lia.
  rewrite !(ToInt32_small (_ * 2 ^ 8)) by lia.
  rewrite <- Z.shiftl_mul_pow2 by lia.
  rewrite Z.shiftl_spec by lia. apply testbit_byte_high; lia.
Qed.

Lemma testbit_byte0_high (v n : Z) :
  32 <= n -> Z.testbit (ToInt32 (v mod 256)) n = false.
Proof.
  intros Hn.
  pose proof (Z.mod_pos_bound v 256 ltac:(lia)) as Hb.
  rewrite ToInt32_small by lia. rewrite <- (Z.div_1_r v).
  change 1 with (2 ^ 0). apply testbit_byte_high; lia.
Qed.

(** Little-endian combination of the two bytes of [v]. *)
Lemma combine_le16 (v : Z) :
  bor (v mod 256) (shl ((v / 2 ^ 8) mod 256) 8) = v mod 2 ^ 16.
Proof.
  apply Z.bits_inj'. intros n Hn. destruct (Z.ltb_spec n 32).
  - rewrite <- (Z.div_1_r v) at 1. change 1 with (2 ^ 0) at 1.
    destruct (Z.ltb_spec n 16).
    + rewrite Z.mod_pow2_bits_low by lia. bits_of_bytes.
    + rewrite Z.mod_pow2_bits_high by lia. bits_of_bytes.
  - rewrite Z.mod_pow2_bits_high by lia. unfold bor.
    rewrite Z.lor_spec, testbit_byte0_high, testbit_shl8_high by lia.
    reflexivity.
Qed.

(** Big-endian combination of the two bytes of [v]. *)
Lemma combine_be16 (v : Z) :
  bor (shl ((v / 2 ^ 8) mod 256) 8) (v mod 256) = v mod 2 ^ 16.
Proof.
  rewrite <- combine_le16. unfold bor. apply Z.lor_comm.
Qed.

(** Big-endian combination of the four bytes of [v]. *)
Lemma combine_be32 (v : Z) :
  ToUint32
    (bor (bor (bor (shl ((v / 2 ^ 24) mod 256) 24)
                   (shl ((v / 2 ^ 16) mod 256) 16))
              (shl ((v / 2 ^ 8) mod 256) 8))
         (v mod 256))
  = v mod 2 ^ 32.
Proof.
  unfold ToUint32. apply Z.bits_inj'. intros n Hn.
  rewrite <- (Z.div_1_r v) at 4. change 1 with (2 ^ 0) at 1.
  destruct (Z.ltb_spec n 32).
  - rewrite !Z.mod_pow2_bits_low by lia.
    bits_of_bytes.
  - rewrite !Z.mod_pow2_bits_high by lia. reflexivity.
Qed.

End BothEndian.

(** ** Typed-array writes into a zero-filled region *)

Section Writes.

Lemma set_at_length (pre src : Uint8Array) (k off : nat) :
  length pre = off ->
  set (pre ++ replicate (length src + k) 0) src off
  = Ok (pre ++ src ++ replicate k 0).
Proof.
  intros <-. unfold set. rewrite !length_app, length_replicate.
  rewrite (proj2 (Nat.leb_le _ _)) by lia.
  rewrite take_app_length, drop_app_add', drop_replicate by reflexivity.
  do 3 f_equal. f_equal. lia.
Qed.

Lemma set_in_hole (pre src post : Uint8Array) (n k off : nat) :
  length pre = off -> length src = n ->
  set (pre ++ replicate (n + k) 0 ++ post) src off
  = Ok (pre ++ src ++ replicate k 0 ++ post).
Proof.
  intros <- <-. unfold set. rewrite !length_app, length_replicate.
  rewrite (proj2 (Nat.leb_le _ _)) by lia.
  rewrite take_app_length, drop_app_add' by reflexivity.
  rewrite drop_app, drop_replicate, length_replicate.
  replace (length src - (length src + k))%nat with 0%nat by lia.
  replace (length src + k - length src)%nat with k by lia.
  reflexivity.
Qed.

End Writes.

(** ** Directory records *)

Section DirRecord.

Lemma u32b_cons (v : Z) :
  exists a0 a1 a2 a3 a4 a5 a6 a7, u32b v = [a0; a1; a2; a3; a4; a5; a6; a7].
Proof. do 8 eexists. reflexivity. Qed.

Lemma dirRecord_shape (nameBytes : Uint8Array) (isDir : bool)
    (extentLba dataLen : Z) :
  dirRecord nameBytes isDir extentLba dataLen
  = Ok (record_bytes nameBytes isDir extentLba dataLen).
Proof.
  unfold dirRecord, record_bytes, alloc, store, ToUint8.
  rewrite length_replicate.
  generalize (Z.of_nat (33 + length nameBytes +
    (if (length nameBytes mod 2 =? 0)%nat then 1 else 0)) mod 256).
  generalize (Z.of_nat (length nameBytes) mod 256).
  generalize (if (length nameBytes mod 2 =? 0)%nat then 1%nat else 0%nat).
  intros pad NL L.
  destruct (u32b_cons extentLba) as (a0&a1&a2&a3&a4&a5&a6&a7&->).
  destruct (u32b_cons dataLen) as (b0&b1&b2&b3&b4&b5&b6&b7&->).
  rewrite <- Nat.add_assoc, replicate_add.
  destruct isDir; cbn.
  all: match goal with
       | |- context [set ?a ?n 33] =>
         let p := eval cbn in (take 33 a) in
         change a with (p ++ replicate (length n + pad) 0);
         rewrite (set_at_length p n pad 33 eq_refl)
       end.
  all: reflexivity.
Qed.

End DirRecord.

(** ** The structural sectors *)

Section Sectors.

Lemma bind_set_cursor {B} (pre src : Uint8Array) (n k off : nat)
    (f : Uint8Array -> result B) (r : result B) :
  length pre = off -> length src = n ->
  f ((pre ++ src) ++ replicate k 0) = r ->
  bind (set (pre ++ replicate (n + k) 0) src off) f = r.
Proof.
  intros Hp <- <-. rewrite set_at_length by exact Hp.
  cbn [bind]. rewrite app_assoc. reflexivity.
Qed.

Lemma bind_assoc {A B C} (m : result A) (f : A -> result B)
    (g : B -> result C) :
  bind (bind m f) g = bind m (fun x => bind (f x) g).
Proof. destruct m; reflexivity. Qed.

Lemma bind_Ok_eq {A B} (m : result A) (a : A) (f : A -> result B)
    (r : result B) :
  m = Ok a -> f a = r -> bind m f = r.
Proof. intros -> <-. reflexivity. Qed.

Lemma build_vdst_shape : build_vdst = Ok vdst_bytes.
Proof. vm_compute. reflexivity. Qed.

Lemma build_pvd_shape (totalSectors : nat) :
  build_pvd totalSectors dot_bytes = Ok (pvd_bytes totalSectors).
Proof.
  unfold build_pvd, pvd_bytes.
  destruct (u32b_cons (Z.of_nat totalSectors))
    as (a0&a1&a2&a3&a4&a5&a6&a7&->).
  vm_compute. reflexivity.
Qed.

Lemma length_record_bytes (n : Uint8Array) (d : bool) (e l : Z) :
  length (record_bytes n d e l)
  = (33 + length n + (if (length n mod 2 =? 0)%nat then 1 else 0))%nat.
Proof.
  unfold record_bytes. rewrite !length_app, length_replicate.
  cbn [length]. rewrite !length_u32b, length_u16b. lia.
Qed.

Lemma build_rootDir_shape (userData metaData : jsstring) :
  build_rootDir (files_of userData metaData)
    [19; 19 + sectors_of (length (encode metaData))]%nat
    dot_bytes dotdot_bytes
  = Ok (rootDir_bytes (encode metaData) (encode userData)).
Proof.
  unfold build_rootDir, files_of.
  apply (bind_set_cursor [] _ 34 2014); [reflexivity..|].
  apply (bind_set_cursor _ _ 34 1980); [reflexivity..|].
  cbn [length for_loop]. change (0 + 1)%nat with 1%nat.
  unfold file_name, file_data, extent_at.
  cbn [lookup list_lookup fmap option_fmap option_map default id fst snd].
  rewrite !dirRecord_shape. cbn [bind]. rewrite !bind_assoc.
  apply (bind_set_cursor _ _ 42 1938); [reflexivity..|].
  cbn [bind]. rewrite ?dirRecord_shape. cbn [bind]. rewrite ?bind_assoc.
  apply (bind_set_cursor _ _ 42 1896); [reflexivity..|].
  cbn [bind fst]. unfold rootDir_bytes.
  rewrite <- !app_assoc. reflexivity.
Qed.

End Sectors.

(** ** The layout planner *)

Section Planner.

Lemma ceil_div_bounds (n : nat) :
  (n <= ceil_div n sector_size * sector_size < n + sector_size)%nat.
Proof.
  unfold ceil_div, sector_size.
  pose proof (Nat.div_mod_eq n 2048) as E.
  pose proof (Nat.mod_upper_bound n 2048 ltac:(lia)) as B.
  destruct (Nat.eqb_spec (n mod 2048) 0); lia.
Qed.

Lemma sectors_of_max (n : nat) :
  sectors_of n = Nat.max 1 (ceil_div n sector_size).
Proof.
  unfold sectors_of, or_else.
  destruct (Nat.eqb_spec (ceil_div n sector_size) 0); lia.
Qed.

Lemma sectors_of_fits (n : nat) :
  (n <= sectors_of n * sector_size)%nat.
Proof.
  rewrite sectors_of_max. pose proof (ceil_div_bounds n).
  unfold sector_size in *. lia.
Qed.

Lemma extents_loop_files (userData metaData : jsstring) :
  extents_loop (files_of userData metaData) 19 []
  = (total_sectors (encode metaData) (encode userData),
     [19; 19 + sectors_of (length (encode metaData))]%nat).
Proof. reflexivity. Qed.

End Planner.

(** ** The assembled image *)

Section Image.

Lemma length_pvd_bytes (t : nat) : length (pvd_bytes t) = 2048%nat.
Proof. reflexivity. Qed.

Lemma length_vdst_bytes : length vdst_bytes = 2048%nat.
Proof. reflexivity. Qed.

Lemma length_rootDir_bytes (md ud : Uint8Array) :
  length (rootDir_bytes md ud) = 2048%nat.
Proof. reflexivity. Qed.

Lemma length_padded (d : Uint8Array) :
  length (padded d) = (sectors_of (length d) * sector_size)%nat.
Proof.
  unfold padded. rewrite length_app, length_replicate.
  pose proof (sectors_of_fits (length d)). lia.
Qed.

Ltac len_solve :=
  rewrite ?length_app, ?length_replicate, ?length_pvd_bytes,
    ?length_vdst_bytes, ?length_rootDir_bytes;
  unfold sector_size in *; lia.

Theorem iso_shape (userData metaData : jsstring) :
  makeCloudInitIso userData metaData
  = Ok (iso_bytes (encode metaData) (encode userData)).
Proof.
  unfold makeCloudInitIso. rewrite extents_loop_files.
  eapply bind_Ok_eq; [apply dirRecord_shape|].
  eapply bind_Ok_eq; [apply dirRecord_shape|].
  eapply bind_Ok_eq; [apply build_rootDir_shape|].
  eapply bind_Ok_eq; [apply build_pvd_shape|].
  eapply bind_Ok_eq; [apply build_vdst_shape|].
  unfold files_of. cbn [length for_loop].
  change (0 + 1)%nat with 1%nat.
  unfold file_data, extent_at.
  cbn [lookup list_lookup fmap option_fmap option_map default id fst snd].
  set (md := encode metaData). set (ud := encode userData).
  pose proof (sectors_of_fits (length md)) as Hm.
  pose proof (sectors_of_fits (length ud)) as Hu.
  unfold alloc.
  replace (total_sectors md ud * sector_size)%nat
    with (16 * sector_size
          + (2048 + (2048 + (2048
             + (length md
                + ((sectors_of (length md) * sector_size - length md)
                   + (length ud
                      + (sectors_of (length ud) * sector_size
                         - length ud))))))))%nat
    by (unfold total_sectors, sector_size in *; lia).
  rewrite replicate_add.
  apply bind_set_cursor; [len_solve | reflexivity |].
  apply bind_set_cursor; [len_solve | reflexivity |].
  apply bind_set_cursor; [len_solve | reflexivity |].
  apply bind_set_cursor; [len_solve | reflexivity |].
  rewrite replicate_add, app_assoc.
  apply bind_set_cursor; [len_solve | reflexivity |].
  unfold iso_bytes, padded. fold md ud.
  rewrite <- !app_assoc. reflexivity.
Qed.

End Image.

(** ** Reading the image back *)

Section Access.

Lemma subarray_mid (pre mid post : Uint8Array) (off n : nat) :
  length pre = off -> length mid = n ->
  subarray (pre ++ mid ++ post) off (off + n) = mid.
Proof.
  intros Hp Hm. unfold subarray.
  replace (off + n - off)%nat with n by lia.
  rewrite drop_app_length' by (symmetry; exact Hp).
  rewrite take_app_length' by (symmetry; exact Hm). reflexivity.
Qed.

Lemma length_iso_bytes (md ud : Uint8Array) :
  length (iso_bytes md ud) = (total_sectors md ud * sector_size)%nat.
Proof.
  unfold iso_bytes.
  rewrite !length_app, !length_padded, length_replicate, length_pvd_bytes,
    length_vdst_bytes, length_rootDir_bytes.
  unfold total_sectors, sector_size. lia.
Qed.

Lemma sector_16 (md ud : Uint8Array) :
  sector (iso_bytes md ud) 16 = pvd_bytes (total_sectors md ud).
Proof.
  unfold sector, iso_bytes.
  replace ((16 + 1) * SECTOR)%nat with (16 * SECTOR + 2048)%nat
    by (unfold SECTOR; lia).
  apply subarray_mid; [apply length_replicate | apply length_pvd_bytes].
Qed.

Lemma sector_17 (md ud : Uint8Array) :
  sector (iso_bytes md ud) 17 = vdst_bytes.
Proof.
  unfold sector, iso_bytes.
  replace ((17 + 1) * SECTOR)%nat with (17 * SECTOR + 2048)%nat
    by (unfold SECTOR; lia).
  rewrite (app_assoc (replicate _ _)).
  apply subarray_mid; [|apply length_vdst_bytes].
  rewrite length_app, length_replicate, length_pvd_bytes.
  unfold sector_size, SECTOR. lia.
Qed.

Lemma sector_18 (md ud : Uint8Array) :
  sector (iso_bytes md ud) 18 = rootDir_bytes md ud.
Proof.
  unfold sector, iso_bytes.
  replace ((18 + 1) * SECTOR)%nat with (18 * SECTOR + 2048)%nat
    by (unfold SECTOR; lia).
  rewrite (app_assoc (replicate _ _)), (app_assoc (_ ++ _)).
  apply subarray_mid; [|apply length_rootDir_bytes].
  rewrite !length_app, length_replicate, length_pvd_bytes,
    length_vdst_bytes.
  unfold sector_size, SECTOR. lia.
Qed.

End Access.

(** ** Decoding both-endian fields in place *)

Section Fields.

Lemma get_drop (buf : Uint8Array) (off k : nat) :
  get buf (off + k) = get (drop off buf) k.
Proof. unfold get. rewrite lookup_drop. reflexivity. Qed.

Lemma u32le_drop (buf : Uint8Array) (off : nat) :
  u32le buf off = u32le (drop off buf) 0.
Proof.
  unfold u32le. rewrite <- !get_drop, Nat.add_0_r. reflexivity.
Qed.

Lemma u32be_drop (buf : Uint8Array) (off : nat) :
  u32be buf off = u32be (drop off buf) 0.
Proof.
  unfold u32be. rewrite <- !get_drop, Nat.add_0_r. reflexivity.
Qed.

Lemma u32le_u32b (v : Z) (post : Uint8Array) :
  u32le (u32b v ++ post) 0 = v mod 2 ^ 32.
Proof. rewrite u32b_bytes. apply combine_le32. Qed.

Lemma u32be_u32b (v : Z) (post : Uint8Array) :
  u32be (drop 4 (u32b v ++ post)) 0 = v mod 2 ^ 32.
Proof. rewrite u32b_bytes. apply combine_be32. Qed.

(** A 32-bit both-endian field written at [off] reads back, in either
    byte order, as the value modulo [2 ^ 32]. *)
Lemma field32 (pre post : Uint8Array) (v : Z) (off : nat) :
  length pre = off ->
  u32le (pre ++ u32b v ++ post) off = v mod 2 ^ 32
  /\ u32be (pre ++ u32b v ++ post) (off + 4) = v mod 2 ^ 32.
Proof.
  intros Hp. split.
  - rewrite u32le_drop, drop_app_length' by (symmetry; exact Hp).
    apply u32le_u32b.
  - rewrite u32be_drop, drop_app_add' by (symmetry; exact Hp).
    apply u32be_u32b.
Qed.

Lemma pvd_split (t : nat) :
  pvd_bytes t
  = take 80 (pvd_bytes 0) ++ u32b (Z.of_nat t) ++ drop 88 (pvd_bytes 0).
Proof. reflexivity. Qed.

Lemma pvd_volume_space_size (t : nat) :
  u32le (pvd_bytes t) 80 = Z.of_nat t mod 2 ^ 32
  /\ u32be (pvd_bytes t) 84 = Z.of_nat t mod 2 ^ 32.
Proof. rewrite pvd_split. apply (field32 _ _ _ 80). reflexivity. Qed.

End Fields.

(** ** Walking the directory *)

Section Walk.

Lemma u32le_drop_add (buf : Uint8Array) (off k : nat) :
  u32le buf (off + k) = u32le (drop off buf) k.
Proof.
  unfold u32le. rewrite <- !get_drop, !Nat.add_assoc. reflexivity.
Qed.

(** The fields of a record, read where the reader looks for them. *)
Lemma record_fields (n : Uint8Array) (d : bool) (e l : Z)
    (post : Uint8Array) :
  let r := record_bytes n d e l ++ post in
  r !! 0%nat = Some (Z.of_nat (length (record_bytes n d e l)) mod 256)
  /\ u32le r 2 = e mod 2 ^ 32
  /\ u32be r 6 = e mod 2 ^ 32
  /\ u32le r 10 = l mod 2 ^ 32
  /\ u32be r 14 = l mod 2 ^ 32
  /\ get r 25 = (if d then 2 else 0)
  /\ u16le r 28 = 1
  /\ u16be r 30 = 1
  /\ get r 32 = Z.of_nat (length n) mod 256
  /\ drop 33 r
     = n ++ replicate (if (length n mod 2 =? 0)%nat then 1 else 0)%nat 0
         ++ post.
Proof.
  intros r. subst r. rewrite length_record_bytes.
  unfold record_bytes. rewrite <- !app_assoc, !u32b_bytes.
  repeat split; try reflexivity.
  - apply combine_le32.
  - apply combine_be32.
  - apply combine_le32.
  - apply combine_be32.
Qed.

Lemma read_entry_record (pre n : Uint8Array) (d : bool) (e l : Z)
    (post : Uint8Array) (off : nat) (rl : Z) :
  length pre = off -> (length n < 256)%nat ->
  read_entry (pre ++ record_bytes n d e l ++ post) off rl
  = mkDirEntry n (e mod 2 ^ 32) (l mod 2 ^ 32) d rl (Z.of_nat (length n)).
Proof.
  intros Hp Hn. unfold read_entry, subarray.
  rewrite !u32le_drop_add, !get_drop, <- (drop_drop _ 33 off).
  rewrite !(drop_app_length' pre _ off) by (symmetry; exact Hp).
  destruct (record_fields n d e l post)
    as (_ & -> & _ & -> & _ & -> & _ & _ & -> & ->).
  rewrite Z.mod_small by lia. f_equal.
  - rewrite Nat2Z.id.
    replace (off + 33 + length n - (off + 33))%nat with (length n) by lia.
    apply take_app_length.
  - destruct d; reflexivity.
Qed.

(** One turn of the walking loop over a record of the builder. *)
Lemma parse_step (fuel : nat) (sector pre n : Uint8Array) (d : bool)
    (e l : Z) (post : Uint8Array) (off : nat) (entries : list DirEntry) :
  sector = pre ++ record_bytes n d e l ++ post ->
  length pre = off -> (off < SECTOR)%nat -> (length n <= 221)%nat ->
  parse_loop (S fuel) sector off entries
  = parse_loop fuel sector (off + length (record_bytes n d e l))
      (entries ++ [entry_of n d e l]).
Proof.
  intros -> Hp Ho Hn. cbn [parse_loop].
  rewrite (proj2 (Nat.ltb_lt _ _) Ho). cbn [negb].
  pose proof (length_record_bytes n d e l) as HL.
  assert ((pre ++ record_bytes n d e l ++ post) !! off
          = Some (Z.of_nat (length (record_bytes n d e l)))) as ->.
  { rewrite lookup_app_r, Hp, Nat.sub_diag by lia.
    rewrite (proj1 (record_fields n d e l post)).
    rewrite Z.mod_small; [reflexivity|].
    destruct (length n mod 2 =? 0)%nat; lia. }
  destruct (Z.eqb_spec (Z.of_nat (length (record_bytes n d e l))) 0) as [E|_].
  { destruct (length n mod 2 =? 0)%nat; lia. }
  rewrite Nat2Z.id, read_entry_record by lia. reflexivity.
Qed.

(** The walk stops at a zero length byte. *)
Lemma parse_stop (fuel : nat) (sector : Uint8Array) (off : nat)
    (entries : list DirEntry) :
  (off < SECTOR)%nat -> sector !! off = Some 0 ->
  parse_loop (S fuel) sector off entries = Some entries.
Proof.
  intros Ho E. cbn [parse_loop].
  rewrite (proj2 (Nat.ltb_lt _ _) Ho), E. reflexivity.
Qed.

Ltac walk_side :=
  rewrite ?length_app, ?length_record_bytes; vm_compute; lia.

Lemma parse_rootDir_bytes (md ud : Uint8Array) :
  parse_loop (SECTOR + 1) (rootDir_bytes md ud) 0 []
  = Some
      [ entry_of (of_list [0]) true 18 (Z.of_nat sector_size);
        entry_of (of_list [1]) true 18 (Z.of_nat sector_size);
        entry_of (encode (lit "META-DATA")) false 19 (Z.of_nat (length md));
        entry_of (encode (lit "USER-DATA")) false
          (Z.of_nat (19 + sectors_of (length md))) (Z.of_nat (length ud)) ].
Proof.
  change (SECTOR + 1)%nat with (S (S (S (S (S 2044))))).
  unfold rootDir_bytes, dot_bytes, dotdot_bytes.
  etransitivity.
  { eapply (parse_step _ _ []);
      [reflexivity | reflexivity | walk_side | walk_side]. }
  etransitivity.
  { eapply (parse_step _ _ (record_bytes _ _ _ _));
      [reflexivity | reflexivity | walk_side | walk_side]. }
  etransitivity.
  { eapply (parse_step _ _ (record_bytes _ _ _ _ ++ record_bytes _ _ _ _));
      [rewrite <- ?app_assoc; reflexivity | reflexivity
      | walk_side | walk_side]. }
  etransitivity.
  { eapply (parse_step _ _
              ((record_bytes _ _ _ _ ++ record_bytes _ _ _ _)
                 ++ record_bytes _ _ _ _));
      [rewrite <- ?app_assoc; reflexivity | reflexivity
      | walk_side | walk_side]. }
  apply parse_stop; [walk_side|]. reflexivity.
Qed.

End Walk.

(** ** Files read back from the image *)

Section Extract.

Lemma parseRootDir_iso (md ud : Uint8Array) :
  parseRootDir (iso_bytes md ud) 18
  = Some
      [ entry_of (of_list [0]) true 18 (Z.of_nat sector_size);
        entry_of (of_list [1]) true 18 (Z.of_nat sector_size);
        entry_of (encode (lit "META-DATA")) false 19 (Z.of_nat (length md));
        entry_of (encode (lit "USER-DATA")) false
          (Z.of_nat (19 + sectors_of (length md))) (Z.of_nat (length ud)) ].
Proof.
  unfold parseRootDir. fold (sector (iso_bytes md ud) 18).
  rewrite sector_18. apply parse_rootDir_bytes.
Qed.

Lemma find_meta (md ud : Uint8Array) :
  find_entry (iso_bytes md ud) (lit "META-DATA")
  = Some (entry_of (encode (lit "META-DATA")) false 19
            (Z.of_nat (length md))).
Proof. unfold find_entry. rewrite parseRootDir_iso. reflexivity. Qed.

Lemma find_user (md ud : Uint8Array) :
  find_entry (iso_bytes md ud) (lit "USER-DATA")
  = Some (entry_of (encode (lit "USER-DATA")) false
            (Z.of_nat (19 + sectors_of (length md)))
            (Z.of_nat (length ud))).
Proof. unfold find_entry. rewrite parseRootDir_iso. reflexivity. Qed.

(** Where the payloads sit in the image. *)
Lemma iso_split_meta (md ud : Uint8Array) :
  exists pre post,
    iso_bytes md ud = pre ++ md ++ post
    /\ length pre = (19 * SECTOR)%nat
    /\ post
       = replicate (sectors_of (length md) * sector_size - length md) 0
           ++ padded ud.
Proof.
  exists (replicate (16 * sector_size) 0
            ++ pvd_bytes (total_sectors md ud) ++ vdst_bytes
            ++ rootDir_bytes md ud).
  eexists. split; [|split; [|reflexivity]].
  - unfold iso_bytes, padded. rewrite <- !app_assoc. reflexivity.
  - rewrite !length_app, length_replicate, length_pvd_bytes,
      length_vdst_bytes, length_rootDir_bytes.
    unfold sector_size, SECTOR. lia.
Qed.

Lemma iso_split_user (md ud : Uint8Array) :
  exists pre,
    iso_bytes md ud
    = pre ++ ud
        ++ replicate (sectors_of (length ud) * sector_size - length ud) 0
    /\ length pre = ((19 + sectors_of (length md)) * SECTOR)%nat.
Proof.
  exists (replicate (16 * sector_size) 0
            ++ pvd_bytes (total_sectors md ud) ++ vdst_bytes
            ++ rootDir_bytes md ud ++ padded md).
  split.
  - unfold iso_bytes. rewrite <- !app_assoc. reflexivity.
  - rewrite !length_app, length_replicate, length_pvd_bytes,
      length_vdst_bytes, length_rootDir_bytes, length_padded.
    unfold sector_size, SECTOR. lia.
Qed.

(** A file read through its entry is never longer than the recorded,
    32-bit data length. *)
Lemma length_fileContent (iso n : Uint8Array) (d : bool) (e l : Z) :
  Z.of_nat (length (fileContent iso (entry_of n d e l))) < 2 ^ 32.
Proof.
  unfold fileContent, subarray. cbn [entry_of extentLba dataLen].
  rewrite length_take.
  pose proof (Z.mod_pos_bound l (2 ^ 32) ltac:(lia)). lia.
Qed.

Lemma roundtrip_user_bound (userData metaData : jsstring) :
  roundtrip userData metaData ->
  Z.of_nat (length (encode userData)) < 2 ^ 32.
Proof.
  intros (iso & E & Hu & _). rewrite iso_shape in E. injection E as <-.
  unfold extract_file in Hu. rewrite find_user in Hu.
  cbn [fmap option_fmap option_map] in Hu. injection Hu as <-.
  apply length_fileContent.
Qed.

End Extract.

(** ** Inputs beyond the 32-bit fields *)

Section Large.

Lemma encode_ascii (n : nat) : encode (replicate n 97) = replicate n 97.
Proof.
  induction n as [|n IH]; [reflexivity|].
  cbn [replicate encode]. rewrite IH. reflexivity.
Qed.

Lemma sectors_of_whole (k : nat) :
  (1 <= k)%nat -> sectors_of (k * sector_size) = k.
Proof.
  intros Hk. rewrite sectors_of_max.
  pose proof (ceil_div_bounds (k * sector_size)).
  unfold sector_size in *. lia.
Qed.

Lemma image_sectors_eq (userData metaData : jsstring) :
  image_sectors userData metaData
  = total_sectors (encode metaData) (encode userData).
Proof. reflexivity. Qed.

Lemma size_consistent_iff (userData metaData : jsstring) :
  size_consistent userData metaData
  <-> Z.of_nat (image_sectors userData metaData) < 2 ^ 32.
Proof.
  rewrite image_sectors_eq. unfold size_consistent.
  set (t := total_sectors _ _).
  assert (Z.of_nat (length (iso_bytes (encode metaData) (encode userData)))
          = Z.of_nat t * 2048) as HL
    by (rewrite length_iso_bytes; unfold sector_size; fold t; lia).
  assert (19 <= Z.of_nat t) as Ht by (unfold t, total_sectors; lia).
  pose proof (Z.mod_pos_bound (Z.of_nat t) (2 ^ 32) ltac:(lia)) as Hb.
  split.
  - intros (iso & E & _ & _ & H). rewrite iso_shape in E.
    injection E as <-. rewrite sector_16, HL in H. fold t in H.
    rewrite (proj1 (pvd_volume_space_size t)) in H. lia.
  - intros H. eexists. split; [apply iso_shape|].
    rewrite sector_16, HL. fold t.
    rewrite (proj1 (pvd_volume_space_size t)).
    rewrite (Z.mod_small (Z.of_nat t) (2 ^ 32)) by lia.
    rewrite Z.mod_mul by lia. lia.
Qed.

End Large.

(** ** Record lengths and zero regions *)

Section Regions.

Lemma mod2_even (n : nat) : (n mod 2 =? 0)%nat = Nat.even n.
Proof.
  pose proof (Nat.div_mod_eq n 2) as D.
  pose proof (Nat.mod_upper_bound n 2 ltac:(lia)) as B.
  destruct (Nat.even n) eqn:E.
  - apply Nat.even_spec in E. destruct E as [k Hk].
    apply Nat.eqb_eq. lia.
  - apply Nat.eqb_neq. intros H.
    assert (Nat.even n = true) as E'; [|congruence].
    apply Nat.even_spec. exists (n / 2)%nat. lia.
Qed.

Lemma record_tail (n : Uint8Array) (d : bool) (e l : Z) :
  drop (33 + length n) (record_bytes n d e l)
  = replicate (if Nat.even (length n) then 1 else 0)%nat 0.
Proof.
  rewrite <- drop_drop.
  pose proof (record_fields n d e l []) as F. cbn zeta in F.
  rewrite app_nil_r in F.
  destruct F as (_ & _ & _ & _ & _ & _ & _ & _ & _ & ->).
  rewrite drop_app_length, app_nil_r, mod2_even. reflexivity.
Qed.

Lemma even_record_length (n : nat) :
  Nat.even (33 + n + (if Nat.even n then 1 else 0)) = true.
Proof.
  destruct (Nat.even n) eqn:E.
  - apply Nat.even_spec in E. destruct E as [k ->].
    apply Nat.even_spec. exists (17 + k)%nat. lia.
  - apply Nat.even_spec.
    assert (Nat.odd n = true) as O
      by (rewrite <- Nat.negb_even, E; reflexivity).
    apply Nat.odd_spec in O. destruct O as [k ->].
    exists (17 + k)%nat. lia.
Qed.

Lemma system_area_zero (md ud : Uint8Array) :
  take (16 * 2048) (iso_bytes md ud) = replicate (16 * 2048) 0.
Proof.
  unfold iso_bytes. apply take_app_length'.
  rewrite length_replicate. reflexivity.
Qed.

Lemma meta_tail_zero (md ud : Uint8Array) :
  subarray (iso_bytes md ud) (19 * 2048 + length md)
    ((19 + sectors_of (length md)) * 2048)
  = replicate (sectors_of (length md) * 2048 - length md) 0.
Proof.
  destruct (iso_split_meta md ud) as (pre & post & -> & Hp & ->).
  pose proof (sectors_of_fits (length md)) as Hf.
  unfold sector_size, SECTOR in *.
  replace ((19 + sectors_of (length md)) * 2048)%nat
    with (19 * 2048 + length md
          + (sectors_of (length md) * 2048 - length md))%nat by lia.
  rewrite (app_assoc pre md).
  apply subarray_mid; [rewrite length_app; lia | apply length_replicate].
Qed.

Lemma user_tail_zero (md ud : Uint8Array) :
  subarray (iso_bytes md ud)
    ((19 + sectors_of (length md)) * 2048 + length ud)
    (total_sectors md ud * 2048)
  = replicate (sectors_of (length ud) * 2048 - length ud) 0.
Proof.
  destruct (iso_split_user md ud) as (pre & -> & Hp).
  pose proof (sectors_of_fits (length ud)) as Hf.
  unfold sector_size, SECTOR, total_sectors in *.
  replace ((19 + sectors_of (length md) + sectors_of (length ud)) * 2048)%nat
    with ((19 + sectors_of (length md)) * 2048 + length ud
          + (sectors_of (length ud) * 2048 - length ud))%nat by lia.
  rewrite (app_assoc pre ud).
  rewrite <- (app_nil_r (replicate _ 0)) at 1.
  apply subarray_mid; [rewrite length_app; lia | apply length_replicate].
Qed.

Lemma file_region (md ud : Uint8Array) :
  drop (19 * 2048) (iso_bytes md ud) = padded md ++ padded ud.
Proof.
  unfold iso_bytes.
  rewrite (app_assoc (replicate _ _)), (app_assoc (_ ++ _)),
    (app_assoc (_ ++ _)).
  apply drop_app_length'.
  rewrite !length_app, length_replicate, length_pvd_bytes,
    length_vdst_bytes, length_rootDir_bytes.
  unfold sector_size. lia.
Qed.

Lemma structural_region (md ud : Uint8Array) :
  take (19 * 2048) (iso_bytes md ud)
  = replicate (16 * 2048) 0
      ++ pvd_bytes (total_sectors md ud) ++ vdst_bytes
      ++ rootDir_bytes md ud.
Proof.
  unfold iso_bytes.
  rewrite (app_assoc (replicate _ _)), (app_assoc (_ ++ _)),
    (app_assoc (_ ++ _)).
  rewrite take_app_length'; [rewrite <- !app_assoc; reflexivity|].
  rewrite !length_app, length_replicate, length_pvd_bytes,
    length_vdst_bytes, length_rootDir_bytes.
  unfold sector_size. lia.
Qed.

End Regions.

(** ** Strings of the engine *)

Section EngineStrings.

Lemma is_string_spec (s : jsstring) :
  is_string s = true
  <-> forallb is_code_unit s = true
      /\ Z.of_nat (length s) <= max_string_length.
Proof. unfold is_string. rewrite andb_true_iff, Z.leb_le. tauto. Qed.

Lemma length_utf8_bytes (c : Z) :
  (length (utf8_bytes c) <= 4)%nat
  /\ (c < 65536 -> (length (utf8_bytes c) <= 3)%nat).
Proof.
  unfold utf8_bytes.
  repeat match goal with
  | |- context [Z.ltb ?a ?b] => destruct (Z.ltb_spec a b)
  end; cbn [length]; lia.
Qed.

(** One code unit gives at most three bytes, a surrogate pair four. *)
Lemma length_encode_bounded (n : nat) (s : jsstring) :
  (length s <= n)%nat ->
  forallb is_code_unit s = true ->
  (length (encode s) <= 3 * length s)%nat.
Proof.
  revert s. induction n as [|n IH]; intros s Hl Hs.
  { destruct s; [cbn; lia | cbn [length] in Hl; lia]. }
  destruct s as [|c rest]; [cbn; lia|].
  cbn [forallb] in Hs. apply andb_true_iff in Hs. destruct Hs as [Hc Hr].
  unfold is_code_unit in Hc. apply andb_true_iff in Hc.
  rewrite Z.leb_le, Z.ltb_lt in Hc.
  cbn [length] in Hl. cbn [encode].
  pose proof (proj2 (length_utf8_bytes 65533) ltac:(lia)) as H3.
  destruct (is_high_surrogate c).
  - destruct rest as [|d rest']; [cbn [length]; lia|].
    destruct (is_low_surrogate d).
    + cbn [forallb] in Hr. apply andb_true_iff in Hr.
      destruct Hr as [_ Hr']. cbn [length] in Hl.
      specialize (IH rest' ltac:(lia) Hr').
      pose proof
        (proj1 (length_utf8_bytes
                  (65536 + (c - 55296) * 1024 + (d - 56320)))) as H4.
      rewrite length_app. cbn [length]. lia.
    + specialize (IH (d :: rest') ltac:(lia) Hr).
      rewrite length_app. cbn [length] in *. lia.
  - specialize (IH rest ltac:(lia) Hr).
    pose proof (proj2 (length_utf8_bytes c) ltac:(lia)) as Hc3.
    destruct (is_low_surrogate c); rewrite length_app; cbn [length]; lia.
Qed.

Lemma length_encode_le (s : jsstring) :
  forallb is_code_unit s = true ->
  (length (encode s) <= 3 * length s)%nat.
Proof. apply (length_encode_bounded (length s)). lia. Qed.

(** The encoding of a string of the engine is shorter than 2^32 bytes. *)
Lemma encode_fits (s : jsstring) :
  is_string s = true -> Z.of_nat (length (encode s)) <= 1610612664.
Proof.
  intros H. apply is_string_spec in H. destruct H as [Hc Hl].
  apply length_encode_le in Hc. unfold max_string_length in Hl. lia.
Qed.

Lemma sectors_of_bound (n : nat) :
  (sectors_of n * 2048 <= n + 2048)%nat.
Proof.
  rewrite sectors_of_max. pose proof (ceil_div_bounds n) as H.
  unfold sector_size in *. lia.
Qed.

(** The round trip holds whenever both encodings are shorter than 2^32
    bytes, the most a data length field can state. *)
Lemma roundtrip_below_4GiB (userData metaData : jsstring) :
  Z.of_nat (length (encode userData)) < 2 ^ 32 ->
  Z.of_nat (length (encode metaData)) < 2 ^ 32 ->
  roundtrip userData metaData.
Proof.
  intros Hu Hm. exists (iso_bytes (encode metaData) (encode userData)).
  split; [apply iso_shape|].
  set (md := encode metaData) in *. set (ud := encode userData) in *.
  pose proof (ceil_div_bounds (length md)) as Hc.
  pose proof (sectors_of_max (length md)) as Hs.
  unfold extract_file. rewrite find_user, find_meta.
  cbn [fmap option_fmap option_map]. unfold fileContent.
  cbn [entry_of extentLba dataLen].
  rewrite !Z.mod_small, !Nat2Z.id by (unfold sector_size in *; lia).
  split; f_equal.
  - destruct (iso_split_user md ud) as (pre & -> & Hp).
    apply subarray_mid; [exact Hp | reflexivity].
  - destruct (iso_split_meta md ud) as (pre & post & -> & Hp & _).
    apply subarray_mid; [exact Hp | reflexivity].
Qed.

(** The 32-bit fields are what bounds the format: on a list of 2^32 code
    units, longer than any string of the engine, the recorded data length
    is the payload length modulo 2^32 and the file reads back short. *)
Lemma roundtrip_fails_at_4GiB :
  ~ roundtrip (replicate (Z.to_nat 4294967296) 97) [].
Proof.
  intros H. apply roundtrip_user_bound in H.
  rewrite encode_ascii, length_replicate in H. lia.
Qed.

(** Likewise the volume space size holds the sector count modulo 2^32,
    which shows only on an image of 2^32 sectors. *)
Lemma volume_space_size_wraps :
  ~ size_consistent (replicate (Z.to_nat 4294967276 * sector_size) 97) [].
Proof.
  rewrite size_consistent_iff, image_sectors_eq. unfold total_sectors.
  rewrite encode_ascii, length_replicate, sectors_of_whole by lia.
  change (sectors_of (length (encode []))) with 1%nat. lia.
Qed.

End EngineStrings.

(** ** Byte orders *)

Section ByteOrders.

Lemma le_bytes_4 (v : Z) :
  le_bytes 4 v
  = [v mod 256; (v / 2 ^ 8) mod 256; (v / 2 ^ 16) mod 256;
     (v / 2 ^ 24) mod 256].
Proof.
  cbn [le_bytes]. rewrite !Z.div_div by lia. reflexivity.
Qed.

Lemma le_bytes_2 (v : Z) :
  le_bytes 2 v = [v mod 256; (v / 2 ^ 8) mod 256].
Proof. reflexivity. Qed.

Lemma u32b_both_endian (v : Z) : u32b v = both_endian 4 v.
Proof.
  unfold both_endian, be_bytes. rewrite le_bytes_4, u32b_bytes.
  reflexivity.
Qed.

Lemma u16b_both_endian (v : Z) : u16b v = both_endian 2 v.
Proof.
  unfold both_endian, be_bytes. rewrite le_bytes_2, u16b_bytes.
  reflexivity.
Qed.

(** [le_bytes n] keeps the value modulo 256^n, and every cell is a
    byte. *)
Lemma le_value_le_bytes (n : nat) (v : Z) :
  le_value (le_bytes n v) = v mod 256 ^ Z.of_nat n.
Proof.
  revert v. induction n as [|n IH]; intros v.
  { cbn [le_bytes le_value]. rewrite Z.mod_1_r. reflexivity. }
  cbn [le_bytes le_value]. rewrite IH, Nat2Z.inj_succ, Z.pow_succ_r by lia.
  symmetry. apply Z.rem_mul_r; [lia|]. apply Z.pow_pos_nonneg; lia.
Qed.

Lemma be_value_be_bytes (n : nat) (v : Z) :
  be_value (be_bytes n v) = v mod 256 ^ Z.of_nat n.
Proof.
  unfold be_value, be_bytes. rewrite reverse_involutive.
  apply le_value_le_bytes.
Qed.

Lemma forallb_le_bytes (n : nat) (v : Z) :
  forallb is_byte (le_bytes n v) = true.
Proof.
  revert v. induction n as [|n IH]; intros v; [reflexivity|].
  cbn [le_bytes forallb]. rewrite IH, andb_true_r.
  unfold is_byte. pose proof (Z.mod_pos_bound v 256 ltac:(lia)).
  apply andb_true_iff. rewrite Z.leb_le, Z.ltb_lt. lia.
Qed.

Lemma forallb_reverse (f : Z -> bool) (l : list Z) :
  forallb f (reverse l) = forallb f l.
Proof.
  induction l as [|x l IH]; [reflexivity|].
  rewrite reverse_cons, forallb_app, IH. cbn [forallb].
  rewrite andb_true_r. apply andb_comm.
Qed.

Lemma forallb_both_endian (n : nat) (v : Z) :
  forallb is_byte (both_endian n v) = true.
Proof.
  unfold both_endian, be_bytes.
  rewrite forallb_app, forallb_reverse, forallb_le_bytes. reflexivity.
Qed.

End ByteOrders.

(** * The claims *)

(** C7. For every pair of inputs, the sector at LBA 16 starts with type
    byte 1, the identifier "CD001" in bytes [1,6) and version byte 1; the
    sector at LBA 17 starts with type byte 255, "CD001" and version byte 1;
    bytes [40,72) of LBA 16 are "CIDATA" followed by 26 spaces, so trimming
    the trailing spaces leaves exactly "CIDATA". *)
Theorem descriptor_fixed_fields (userData metaData : jsstring) :
  exists iso,
    makeCloudInitIso userData metaData = Ok iso
    /\ sector iso 16 !! 0%nat = Some 1
    /\ subarray (sector iso 16) 1 6 = lit "CD001"
    /\ sector iso 16 !! 6%nat = Some 1
    /\ sector iso 17 !! 0%nat = Some 255
    /\ subarray (sector iso 17) 1 6 = lit "CD001"
    /\ sector iso 17 !! 6%nat = Some 1
    /\ subarray (sector iso 16) 40 72 = lit "CIDATA" ++ replicate 26 32
    /\ trim_end (subarray (sector iso 16) 40 72) = lit "CIDATA".
Proof.
  eexists. split; [apply iso_shape|].
  rewrite sector_16, sector_17.
  repeat split; reflexivity.
Qed.

(** C4. For every pair of input strings, the output length is an exact
    multiple of 2048, is strictly greater than 16 * 2048, and equals 2048
    times the little-endian u32 at byte offset 80 of the sector at LBA 16.
    A string is a sequence of at most 2^29 - 24 UTF-16 code units, the
    longest the engine makes, so the image has far fewer than 2^32
    sectors. *)
Theorem volume_space_size_every_string (userData metaData : jsstring) :
  is_string userData = true -> is_string metaData = true ->
  size_consistent userData metaData.
Proof.
  intros Hu Hm. apply size_consistent_iff. rewrite image_sectors_eq.
  apply encode_fits in Hu, Hm. unfold total_sectors.
  pose proof (sectors_of_bound (length (encode userData))).
  pose proof (sectors_of_bound (length (encode metaData))).
  lia.
Qed.

Lemma volume_space_size_every_string_witness :
  is_string (lit "abc") = true /\ is_string (lit "de") = true
  /\ size_consistent (lit "abc") (lit "de").
Proof.
  split; [reflexivity|]. split; [reflexivity|].
  apply (volume_space_size_every_string (lit "abc") (lit "de"));
    reflexivity.
Defined.

(** C1. Round trip: for every pair of input strings, building the image
    and reading each file back (exactly the recorded data length, from
    byte offset extent LBA * 2048) yields the UTF-8 encoding of the
    user-data for USER-DATA and of the meta-data for META-DATA. A string
    is a sequence of at most 2^29 - 24 UTF-16 code units, the longest the
    engine makes, so each encoding is shorter than 2^32 bytes and its
    length fits the 32-bit data length field. *)
Theorem roundtrip_every_string (userData metaData : jsstring) :
  is_string userData = true -> is_string metaData = true ->
  roundtrip userData metaData.
Proof.
  intros Hu Hm. apply encode_fits in Hu, Hm.
  apply roundtrip_below_4GiB; lia.
Qed.

Lemma roundtrip_every_string_witness :
  is_string (lit "abc") = true /\ is_string (lit "de") = true
  /\ roundtrip (lit "abc") (lit "de").
Proof.
  split; [reflexivity|]. split; [reflexivity|].
  apply (roundtrip_every_string (lit "abc") (lit "de")); reflexivity.
Defined.

(** C2 (as amended). The image built from the user-data
    "#cloud-config\nhostname: myvm\n" and the meta-data
    "instance-id: myvm\n" has a root directory whose file entries are
    META-DATA with recorded data length 18 and USER-DATA with recorded
    data length 29, in that order, both with extent LBA >= 19, and its
    total length is a multiple of 2048. *)
Theorem example_end_to_end : example_directory 18 29.
Proof.
  exists (iso_bytes (encode example_meta) (encode example_user)).
  eexists. split; [apply iso_shape|].
  split; [apply parseRootDir_iso|].
  split; [vm_compute; reflexivity|].
  split.
  - cbn [file_entries List.filter entry_of isDir negb].
    repeat constructor; vm_compute; discriminate.
  - rewrite length_iso_bytes, Nat2Z.inj_mul. apply Z.mod_mul.
    unfold sector_size. lia.
Qed.

(** C2 as stated fails: the recorded data length of META-DATA is 18, the
    length of "instance-id: myvm\n", not 19. *)
Lemma example_meta_length_not_19 : ~ example_directory 19 29.
Proof.
  intros (iso & entries & E & P & F & _).
  rewrite iso_shape in E. injection E as <-.
  rewrite parseRootDir_iso in P. injection P as <-.
  vm_compute in F. discriminate F.
Qed.

(** C3. For every pair of inputs the file table is in name order
    (META-DATA, then USER-DATA); each turn of the extent loop records the
    running LBA and advances it by max(1, ceil(byteLength / 2048)); so
    META-DATA starts at LBA 19, USER-DATA starts right after META-DATA's
    last sector, the total is the sector after USER-DATA's last one, both
    extents are >= 19, an empty payload takes exactly one sector, and the
    payloads sit in the image at their extents. *)
Theorem extent_assignment (userData metaData : jsstring) :
  let files := files_of userData metaData in
  let md := encode metaData in
  let ud := encode userData in
  files = [(lit "META-DATA", md); (lit "USER-DATA", ud)]
  /\ lex_lt (lit "META-DATA") (lit "USER-DATA") = true
  /\ (forall nm data rest lba extents,
        extents_loop ((nm, data) :: rest) lba extents
        = extents_loop rest
            (lba + Nat.max 1 (ceil_div (length data) 2048))%nat
            (extents ++ [lba]))
  /\ (forall n, (n <= ceil_div n 2048 * 2048 < n + 2048)%nat)
  /\ Nat.max 1 (ceil_div 0 2048) = 1%nat
  /\ exists e0 e1 total iso,
       extents_loop files 19 [] = (total, [e0; e1])
       /\ e0 = 19%nat
       /\ e1 = (e0 + Nat.max 1 (ceil_div (length md) 2048))%nat
       /\ total = (e1 + Nat.max 1 (ceil_div (length ud) 2048))%nat
       /\ (19 <= e0)%nat /\ (19 <= e1)%nat
       /\ makeCloudInitIso userData metaData = Ok iso
       /\ subarray iso (e0 * 2048) (e0 * 2048 + length md) = md
       /\ subarray iso (e1 * 2048) (e1 * 2048 + length ud) = ud.
Proof.
  intros files md ud.
  split; [reflexivity|]. split; [reflexivity|].
  split.
  { intros nm data rest lba extents. cbn [extents_loop].
    fold (sectors_of (length data)). rewrite sectors_of_max. reflexivity. }
  split; [exact ceil_div_bounds|]. split; [reflexivity|].
  exists 19%nat, (19 + sectors_of (length md))%nat, (total_sectors md ud),
    (iso_bytes md ud).
  pose proof (sectors_of_max (length md)) as Hm.
  pose proof (sectors_of_max (length ud)) as Hu.
  unfold sector_size in Hm, Hu.
  split; [apply extents_loop_files|].
  split; [reflexivity|]. split; [lia|].
  split; [unfold total_sectors; lia|].
  split; [lia|]. split; [lia|].
  split; [apply iso_shape|]. split.
  - destruct (iso_split_meta md ud) as (pre & post & -> & Hp & _).
    apply subarray_mid; [exact Hp | reflexivity].
  - destruct (iso_split_user md ud) as (pre & -> & Hp).
    apply subarray_mid; [exact Hp | reflexivity].
Qed.

(** C8. The builder raises no error for any two strings; for two empty
    strings it returns an image whose length is a multiple of 2048 and
    exceeds 16 sectors, and whose byte 0 of LBA 16 is 1. *)
Theorem builder_total :
  (forall userData metaData : jsstring,
     exists iso, makeCloudInitIso userData metaData = Ok iso)
  /\ exists iso,
       makeCloudInitIso [] [] = Ok iso
       /\ Z.of_nat (length iso) mod 2048 = 0
       /\ 16 * 2048 < Z.of_nat (length iso)
       /\ sector iso 16 !! 0%nat = Some 1.
Proof.
  split.
  - intros userData metaData. eexists. apply iso_shape.
  - eexists. split; [apply iso_shape|].
    rewrite sector_16, length_iso_bytes, Nat2Z.inj_mul.
    split; [apply Z.mod_mul; unfold sector_size; lia|].
    split; [|reflexivity].
    change (encode []) with (@nil Z). unfold total_sectors.
    change (sectors_of (length [])) with 1%nat. unfold sector_size. lia.
Qed.

(** C5. For every pair of inputs, walking the sector at LBA 18 record by
    record (first byte = record length, back to back from offset 0, until a
    zero length byte) yields exactly four entries in order: dot, dotdot,
    META-DATA, USER-DATA; each record's length is 33 + name length, plus
    one when the name length is even, hence even. Every record the builder
    makes has that length, states it in its first byte, and ends, after the
    name, with one zero byte exactly when the name length is even. *)
Theorem root_directory_contents (userData metaData : jsstring) :
  (exists iso entries,
     makeCloudInitIso userData metaData = Ok iso
     /\ parseRootDir iso 18 = Some entries
     /\ name <$> entries = [[0]; [1]; lit "META-DATA"; lit "USER-DATA"]
     /\ isDir <$> entries = [true; true; false; false]
     /\ Forall
          (fun e =>
             recLen e
             = 33 + nameLen e + (if Z.even (nameLen e) then 1 else 0)
             /\ Z.even (recLen e) = true)
          entries
     /\ sector iso 18 !! Z.to_nat (foldr Z.add 0 (recLen <$> entries))
        = Some 0)
  /\ (forall nameBytes isDir extentLba dataLen,
        exists rec,
          dirRecord nameBytes isDir extentLba dataLen = Ok rec
          /\ length rec
             = (33 + length nameBytes
                + (if Nat.even (length nameBytes) then 1 else 0))%nat
          /\ Nat.even (length rec) = true
          /\ rec !! 0%nat = Some (Z.of_nat (length rec) mod 256)
          /\ take (length nameBytes) (drop 33 rec) = nameBytes
          /\ drop (33 + length nameBytes) rec
             = replicate (if Nat.even (length nameBytes) then 1 else 0)%nat 0).
Proof.
  split.
  - eexists _, _. split; [apply iso_shape|].
    split; [apply parseRootDir_iso|]. rewrite sector_18.
    split; [reflexivity|]. split; [reflexivity|].
    split; [|reflexivity].
    repeat constructor.
  - intros nameBytes isDir extentLba dataLen.
    exists (record_bytes nameBytes isDir extentLba dataLen).
    split; [apply dirRecord_shape|].
    rewrite length_record_bytes, mod2_even.
    split; [reflexivity|]. split; [apply even_record_length|].
    pose proof (record_fields nameBytes isDir extentLba dataLen []) as F.
    cbn zeta in F. rewrite app_nil_r, length_record_bytes, mod2_even in F.
    destruct F as (F0 & _ & _ & _ & _ & _ & _ & _ & _ & F33).
    split; [exact F0|]. split; [|apply record_tail].
    rewrite F33. apply take_app_length.
Qed.

(** C9. For every pair of inputs, the first 16 * 2048 bytes of the image
    are zero, and in each file's extent the bytes from the end of the data
    to the end of its last sector (the start of the next extent, or the end
    of the image) are zero. *)
Theorem unwritten_regions_zero (userData metaData : jsstring) :
  let md := encode metaData in
  let ud := encode userData in
  exists iso e0 e1 total,
    makeCloudInitIso userData metaData = Ok iso
    /\ extents_loop (files_of userData metaData) 19 [] = (total, [e0; e1])
    /\ length iso = (total * 2048)%nat
    /\ take (16 * 2048) iso = replicate (16 * 2048) 0
    /\ (e0 * 2048 + length md <= e1 * 2048)%nat
    /\ subarray iso (e0 * 2048 + length md) (e1 * 2048)
       = replicate (e1 * 2048 - (e0 * 2048 + length md)) 0
    /\ (e1 * 2048 + length ud <= total * 2048)%nat
    /\ subarray iso (e1 * 2048 + length ud) (total * 2048)
       = replicate (total * 2048 - (e1 * 2048 + length ud)) 0.
Proof.
  intros md ud.
  exists (iso_bytes md ud), 19%nat, (19 + sectors_of (length md))%nat,
    (total_sectors md ud).
  pose proof (sectors_of_fits (length md)) as Hm.
  pose proof (sectors_of_fits (length ud)) as Hu.
  unfold sector_size in Hm, Hu.
  split; [apply iso_shape|]. split; [apply extents_loop_files|].
  split; [apply length_iso_bytes|]. split; [apply system_area_zero|].
  split; [lia|]. split.
  { rewrite meta_tail_zero. f_equal; lia. }
  split; [unfold total_sectors; lia|].
  rewrite user_tail_zero. unfold total_sectors. f_equal; lia.
Qed.

(** C10. For every pair of inputs, the 8 bytes at offset 132 of LBA 16
    are the both-endian encoding of 0, bytes 140-151 of LBA 16 are zero,
    and the image consists of the 16 zero sectors, the sectors at LBA 16,
    17 and 18, and from LBA 19 on nothing but the two padded payloads:
    the first extent is 19 and no sector is left for a path table. *)
Theorem no_path_tables (userData metaData : jsstring) :
  let md := encode metaData in
  let ud := encode userData in
  exists iso e1 total,
    makeCloudInitIso userData metaData = Ok iso
    /\ subarray (sector iso 16) 132 140 = u32b 0
    /\ u32le (sector iso 16) 132 = 0
    /\ u32be (sector iso 16) 136 = 0
    /\ subarray (sector iso 16) 140 152 = replicate 12 0
    /\ extents_loop (files_of userData metaData) 19 [] = (total, [19%nat; e1])
    /\ take (19 * 2048) iso
       = replicate (16 * 2048) 0
           ++ sector iso 16 ++ sector iso 17 ++ sector iso 18
    /\ drop (19 * 2048) iso
       = (md ++ replicate ((e1 - 19) * 2048 - length md) 0)
           ++ (ud ++ replicate ((total - e1) * 2048 - length ud) 0).
Proof.
  intros md ud.
  exists (iso_bytes md ud), (19 + sectors_of (length md))%nat,
    (total_sectors md ud).
  split; [apply iso_shape|].
  rewrite sector_16, sector_17, sector_18.
  split; [reflexivity|]. split; [reflexivity|]. split; [reflexivity|].
  split; [reflexivity|]. split; [apply extents_loop_files|].
  split.
  - apply structural_region.
  - rewrite file_region. unfold padded, total_sectors, sector_size.
    do 4 f_equal; lia.
Qed.

(** C6. [u32b] and [u16b] write a both-endian field: the little-endian
    encoding of the value (its low bytes, least significant first)
    immediately followed by the big-endian encoding of the same value (the
    same bytes, most significant first); every cell is a byte, and both
    halves stand for, and decode to, the same value: the value itself when
    it fits the field. For every pair of inputs the volume space size, set
    size, sequence number and logical block size of the sector at LBA 16
    and the extent LBA and data length of every directory record are such
    fields; the block size is the bytes 0, 8, 8, 0, so the little-endian
    u16 at offset 128 of LBA 16 and the big-endian u16 at offset 130 are
    both 2048, and the extent field of the record embedded at offset 156
    is 18 followed by six zero bytes and 18, which decodes to 18 in both
    halves. *)
Theorem both_endian_fields (userData metaData : jsstring) :
  (forall v,
     u32b v = le_bytes 4 v ++ be_bytes 4 v
     /\ le_bytes 4 v
        = [v mod 256; (v / 2 ^ 8) mod 256; (v / 2 ^ 16) mod 256;
           (v / 2 ^ 24) mod 256]
     /\ be_bytes 4 v
        = [(v / 2 ^ 24) mod 256; (v / 2 ^ 16) mod 256; (v / 2 ^ 8) mod 256;
           v mod 256]
     /\ forallb is_byte (u32b v) = true
     /\ le_value (le_bytes 4 v) = v mod 2 ^ 32
     /\ be_value (be_bytes 4 v) = v mod 2 ^ 32
     /\ length (u32b v) = 8%nat
     /\ u32le (u32b v) 0 = v mod 2 ^ 32
     /\ u32be (u32b v) 4 = v mod 2 ^ 32)
  /\ (forall v,
        u16b v = le_bytes 2 v ++ be_bytes 2 v
        /\ le_bytes 2 v = [v mod 256; (v / 2 ^ 8) mod 256]
        /\ be_bytes 2 v = [(v / 2 ^ 8) mod 256; v mod 256]
        /\ forallb is_byte (u16b v) = true
        /\ le_value (le_bytes 2 v) = v mod 2 ^ 16
        /\ be_value (be_bytes 2 v) = v mod 2 ^ 16
        /\ length (u16b v) = 4%nat
        /\ u16le (u16b v) 0 = v mod 2 ^ 16
        /\ u16be (u16b v) 2 = v mod 2 ^ 16)
  /\ exists iso e1 total,
       makeCloudInitIso userData metaData = Ok iso
       /\ extents_loop (files_of userData metaData) 19 []
          = (total, [19%nat; e1])
       /\ subarray (sector iso 16) 80 88 = both_endian 4 (Z.of_nat total)
       /\ subarray (sector iso 16) 80 88 = u32b (Z.of_nat total)
       /\ subarray (sector iso 16) 120 124 = [1; 0; 0; 1]
       /\ subarray (sector iso 16) 120 124 = u16b 1
       /\ subarray (sector iso 16) 124 128 = [1; 0; 0; 1]
       /\ subarray (sector iso 16) 124 128 = u16b 1
       /\ subarray (sector iso 16) 128 132 = [0; 8; 8; 0]
       /\ subarray (sector iso 16) 128 132 = u16b 2048
       /\ u16le (sector iso 16) 128 = 2048
       /\ u16be (sector iso 16) 130 = 2048
       /\ subarray (sector iso 16) 158 166 = [18; 0; 0; 0; 0; 0; 0; 18]
       /\ subarray (sector iso 16) 158 166 = u32b 18
       /\ u32le (sector iso 16) 158 = 18
       /\ u32be (sector iso 16) 162 = 18
       /\ subarray (sector iso 16) 166 174 = [0; 8; 0; 0; 0; 0; 8; 0]
       /\ subarray (sector iso 16) 166 174 = u32b 2048
       /\ subarray (sector iso 18) 2 10 = [18; 0; 0; 0; 0; 0; 0; 18]
       /\ subarray (sector iso 18) 2 10 = u32b 18
       /\ subarray (sector iso 18) 10 18 = [0; 8; 0; 0; 0; 0; 8; 0]
       /\ subarray (sector iso 18) 10 18 = u32b 2048
       /\ subarray (sector iso 18) 36 44 = [18; 0; 0; 0; 0; 0; 0; 18]
       /\ subarray (sector iso 18) 36 44 = u32b 18
       /\ subarray (sector iso 18) 44 52 = [0; 8; 0; 0; 0; 0; 8; 0]
       /\ subarray (sector iso 18) 44 52 = u32b 2048
       /\ subarray (sector iso 18) 70 78 = [19; 0; 0; 0; 0; 0; 0; 19]
       /\ subarray (sector iso 18) 70 78 = u32b 19
       /\ subarray (sector iso 18) 78 86
          = both_endian 4 (Z.of_nat (length (encode metaData)))
       /\ subarray (sector iso 18) 78 86
          = u32b (Z.of_nat (length (encode metaData)))
       /\ subarray (sector iso 18) 112 120 = both_endian 4 (Z.of_nat e1)
       /\ subarray (sector iso 18) 112 120 = u32b (Z.of_nat e1)
       /\ subarray (sector iso 18) 120 128
          = both_endian 4 (Z.of_nat (length (encode userData)))
       /\ subarray (sector iso 18) 120 128
          = u32b (Z.of_nat (length (encode userData))).
Proof.
  split.
  { intros v. split; [apply u32b_both_endian|].
    split; [apply le_bytes_4|].
    split; [unfold be_bytes; rewrite le_bytes_4; reflexivity|].
    split; [rewrite u32b_both_endian; apply forallb_both_endian|].
    split; [apply (le_value_le_bytes 4)|].
    split; [apply (be_value_be_bytes 4)|].
    split; [reflexivity|]. rewrite u32b_bytes.
    split; [apply combine_le32 | apply combine_be32]. }
  split.
  { intros v. split; [apply u16b_both_endian|].
    split; [apply le_bytes_2|].
    split; [reflexivity|].
    split; [rewrite u16b_both_endian; apply forallb_both_endian|].
    split; [apply (le_value_le_bytes 2)|].
    split; [apply (be_value_be_bytes 2)|].
    split; [reflexivity|]. rewrite u16b_bytes.
    split; [apply combine_le16 | apply combine_be16]. }
  eexists _, _, _. split; [apply iso_shape|].
  split; [apply extents_loop_files|].
  rewrite sector_16, sector_18, <- !u32b_both_endian.
  repeat split; reflexivity.
Qed.

(** * Further properties of the code *)

(** ** Directory records for any name *)

Section RecordsInGeneral.

Lemma record_length_byte (n : Uint8Array) (d : bool) (e l : Z) :
  record_bytes n d e l !! 0%nat
  = Some (Z.of_nat (length (record_bytes n d e l)) mod 256).
Proof.
  pose proof (record_fields n d e l []) as F. cbn zeta in F.
  rewrite app_nil_r in F. exact (proj1 F).
Qed.

Lemma record_length_fits (n : Uint8Array) (d : bool) (e l : Z) :
  (length (record_bytes n d e l) < 256)%nat <-> (length n <= 221)%nat.
Proof.
  rewrite length_record_bytes.
  pose proof (Nat.div_mod_eq (length n) 2) as D.
  pose proof (Nat.mod_upper_bound (length n) 2 ltac:(lia)) as B.
  destruct (Nat.eqb_spec (length n mod 2) 0); lia.
Qed.

End RecordsInGeneral.

(** X1. A record written by [dirRecord] for any name of at most 221 bytes,
    followed by zeros up to a full sector, is read back by the walking
    loop as exactly one entry with that name and directory flag, and the
    extent LBA and data length modulo 2^32. *)
Theorem record_roundtrip (nameBytes : Uint8Array) (d : bool) (e l : Z) :
  (length nameBytes <= 221)%nat ->
  exists rec,
    dirRecord nameBytes d e l = Ok rec
    /\ parse_loop (SECTOR + 1)
         (rec ++ replicate (SECTOR - length rec) 0) 0 []
       = Some [ mkDirEntry nameBytes (e mod 2 ^ 32) (l mod 2 ^ 32) d
                  (Z.of_nat (length rec)) (Z.of_nat (length nameBytes)) ].
Proof.
  intros Hn. exists (record_bytes nameBytes d e l).
  split; [apply dirRecord_shape|].
  pose proof (proj2 (record_length_fits nameBytes d e l) Hn) as HL.
  change (SECTOR + 1)%nat with (S (S 2047)).
  etransitivity.
  { eapply (parse_step _ _ []); [reflexivity | reflexivity | | exact Hn].
    unfold SECTOR. lia. }
  cbn [app Nat.add]. apply parse_stop; [unfold SECTOR; lia|].
  rewrite lookup_app_r, Nat.sub_diag by lia.
  apply lookup_replicate_2. unfold SECTOR. lia.
Qed.

Lemma record_roundtrip_witness :
  (length (lit "VENDOR-DATA") <= 221)%nat
  /\ exists rec,
       dirRecord (lit "VENDOR-DATA") false 21 5000 = Ok rec
       /\ parse_loop (SECTOR + 1)
            (rec ++ replicate (SECTOR - length rec) 0) 0 []
          = Some [ mkDirEntry (lit "VENDOR-DATA") (21 mod 2 ^ 32)
                     (5000 mod 2 ^ 32) false
                     (Z.of_nat (length rec))
                     (Z.of_nat (length (lit "VENDOR-DATA"))) ].
Proof.
  split; [vm_compute; lia|].
  apply (record_roundtrip (lit "VENDOR-DATA") false 21 5000).
  vm_compute. lia.
Defined.

(** X2. The first byte of a record states the record's length exactly
    when the name has at most 221 bytes: from 222 bytes on the length
    (256 or more) no longer fits the byte and wraps; likewise the
    name-length byte is right exactly for names of at most 255 bytes. *)
Theorem record_length_byte_wraps (nameBytes : Uint8Array) (d : bool)
    (e l : Z) :
  exists rec,
    dirRecord nameBytes d e l = Ok rec
    /\ rec !! 0%nat = Some (Z.of_nat (length rec) mod 256)
    /\ (rec !! 0%nat = Some (Z.of_nat (length rec))
        <-> (length nameBytes <= 221)%nat)
    /\ (get rec 32 = Z.of_nat (length nameBytes)
        <-> (length nameBytes <= 255)%nat).
Proof.
  exists (record_bytes nameBytes d e l).
  split; [apply dirRecord_shape|].
  split; [apply record_length_byte|].
  pose proof (record_length_fits nameBytes d e l) as HF.
  pose proof (record_fields nameBytes d e l []) as F. cbn zeta in F.
  rewrite app_nil_r in F.
  destruct F as (F0 & _ & _ & _ & _ & _ & _ & _ & F32 & _).
  rewrite F0, F32.
  set (L := length (record_bytes nameBytes d e l)) in *.
  pose proof (Z.mod_pos_bound (Z.of_nat L) 256 ltac:(lia)) as B1.
  pose proof (Z.mod_pos_bound (Z.of_nat (length nameBytes)) 256
                ltac:(lia)) as B2.
  split; split.
  - intros H. injection H as H. apply HF. lia.
  - intros H. apply HF in H. rewrite Z.mod_small by lia. reflexivity.
  - intros H. lia.
  - intros H. apply Z.mod_small. lia.
Qed.

(** X3. Every record [dirRecord] makes, for any name, flag, extent and
    length, has extended-attribute length 0, the both-endian extent at
    bytes 2-9 and data length at bytes 10-17, the recording date
    126/2/21 00:00:00 offset 0 (21 February 2026) at bytes 18-24, flags
    byte 2 for a directory and 0 for a file, zero unit size and
    interleave gap, and volume sequence number 1 in both byte orders. *)
Theorem record_fixed_fields (nameBytes : Uint8Array) (d : bool) (e l : Z) :
  exists rec,
    dirRecord nameBytes d e l = Ok rec
    /\ rec !! 1%nat = Some 0
    /\ subarray rec 2 10 = u32b e
    /\ subarray rec 10 18 = u32b l
    /\ subarray rec 18 25 = [126; 2; 21; 0; 0; 0; 0]
    /\ rec !! 25%nat = Some (if d then 2 else 0)
    /\ subarray rec 26 28 = [0; 0]
    /\ subarray rec 28 32 = [1; 0; 0; 1]
    /\ u16le rec 28 = 1 /\ u16be rec 30 = 1.
Proof.
  exists (record_bytes nameBytes d e l).
  split; [apply dirRecord_shape|].
  unfold record_bytes. destruct d; repeat split; reflexivity.
Qed.

(** ** The upload loop *)

Section UploadLoop.



Lemma is_byte_spec (b : Z) : is_byte b = true <-> 0 <= b < 256.
Proof. unfold is_byte. rewrite andb_true_iff, Z.leb_le, Z.ltb_lt. tauto. Qed.




End UploadLoop.


(** ** Every element written is a byte *)

Section Bytes.












End Bytes.



(** ** Size, and what the image determines *)

Section SizeAndContent.

Lemma sectors_of_upper (n : nat) :
  (sectors_of n * 2048 <= n + 2048)%nat /\ (1 <= sectors_of n)%nat.
Proof.
  rewrite sectors_of_max. pose proof (ceil_div_bounds n) as H.
  unfold sector_size in *. lia.
Qed.

Lemma extract_user_iso (md ud : Uint8Array) :
  Z.of_nat (length md) < 2 ^ 32 -> Z.of_nat (length ud) < 2 ^ 32 ->
  extract_file (iso_bytes md ud) (lit "USER-DATA") = Some ud.
Proof.
  intros Hm Hu.
  pose proof (ceil_div_bounds (length md)) as Hc.
  pose proof (sectors_of_max (length md)) as Hs.
  unfold extract_file. rewrite find_user.
  cbn [fmap option_fmap option_map]. unfold fileContent.
  cbn [entry_of extentLba dataLen].
  rewrite !Z.mod_small, !Nat2Z.id by (unfold sector_size in *; lia).
  f_equal. destruct (iso_split_user md ud) as (pre & -> & Hp).
  apply subarray_mid; [exact Hp | reflexivity].
Qed.

Lemma extract_meta_iso (md ud : Uint8Array) :
  Z.of_nat (length md) < 2 ^ 32 ->
  extract_file (iso_bytes md ud) (lit "META-DATA") = Some md.
Proof.
  intros Hm. unfold extract_file. rewrite find_meta.
  cbn [fmap option_fmap option_map]. unfold fileContent.
  cbn [entry_of extentLba dataLen].
  rewrite !Z.mod_small, !Nat2Z.id by lia.
  f_equal. destruct (iso_split_meta md ud) as (pre & post & -> & Hp & _).
  apply subarray_mid; [exact Hp | reflexivity].
Qed.

Lemma Ok_inj {A} (a b : A) : Ok a = Ok b -> a = b.
Proof. intros H. injection H as H. exact H. Qed.

Lemma rootDir_bytes_lengths (md ud md' ud' : Uint8Array) :
  length md = length md' -> length ud = length ud' ->
  rootDir_bytes md ud = rootDir_bytes md' ud'.
Proof. intros Hm Hu. unfold rootDir_bytes. rewrite Hm, Hu. reflexivity. Qed.

End SizeAndContent.

(** X6. For every pair of inputs the image is 2048 bytes times
    19 + max(1, ceil(|meta| / 2048)) + max(1, ceil(|user| / 2048)); it is
    never smaller than 21 sectors (43008 bytes), and it exceeds the two
    payloads together by at least 19 and at most 21 sectors. *)
Theorem image_size_bounds (userData metaData : jsstring) :
  exists iso,
    makeCloudInitIso userData metaData = Ok iso
    /\ length iso
       = ((19 + Nat.max 1 (ceil_div (length (encode metaData)) 2048)
              + Nat.max 1 (ceil_div (length (encode userData)) 2048))
          * 2048)%nat
    /\ (21 * 2048 <= length iso)%nat
    /\ (length (encode metaData) + length (encode userData) + 19 * 2048
        <= length iso)%nat
    /\ (length iso
        <= length (encode metaData) + length (encode userData) + 21 * 2048)%nat.
Proof.
  eexists. split; [apply iso_shape|].
  rewrite length_iso_bytes. unfold total_sectors.
  pose proof (sectors_of_upper (length (encode metaData))) as [Hm1 Hm2].
  pose proof (sectors_of_upper (length (encode userData))) as [Hu1 Hu2].
  pose proof (sectors_of_fits (length (encode metaData))) as Hm3.
  pose proof (sectors_of_fits (length (encode userData))) as Hu3.
  pose proof (sectors_of_max (length (encode metaData))) as Hm4.
  pose proof (sectors_of_max (length (encode userData))) as Hu4.
  unfold sector_size in *. repeat split; lia.
Qed.

(** X7. Two pairs of inputs whose four UTF-8 encodings are shorter than
    2^32 bytes and that give the same image have the same encoded
    user-data and the same encoded meta-data: the image determines both
    payloads. *)
Theorem image_determines_payloads (u m u' m' : jsstring) :
  Z.of_nat (length (encode u)) < 2 ^ 32 ->
  Z.of_nat (length (encode m)) < 2 ^ 32 ->
  Z.of_nat (length (encode u')) < 2 ^ 32 ->
  Z.of_nat (length (encode m')) < 2 ^ 32 ->
  makeCloudInitIso u m = makeCloudInitIso u' m' ->
  encode u = encode u' /\ encode m = encode m'.
Proof.
  intros Hu Hm Hu' Hm' E. rewrite !iso_shape in E. apply Ok_inj in E.
  pose proof (extract_user_iso (encode m) (encode u) Hm Hu) as A.
  pose proof (extract_meta_iso (encode m) (encode u) Hm) as B.
  rewrite E in A, B.
  rewrite extract_user_iso in A by assumption.
  rewrite extract_meta_iso in B by assumption.
  split; congruence.
Qed.

Lemma image_determines_payloads_witness :
  Z.of_nat (length (encode [55296])) < 2 ^ 32
  /\ Z.of_nat (length (encode (lit "de"))) < 2 ^ 32
  /\ Z.of_nat (length (encode [65533])) < 2 ^ 32
  /\ Z.of_nat (length (encode (lit "de"))) < 2 ^ 32
  /\ makeCloudInitIso [55296] (lit "de") = makeCloudInitIso [65533] (lit "de")
  /\ encode [55296] = encode [65533]
  /\ encode (lit "de") = encode (lit "de").
Proof.
  do 4 (split; [vm_compute; reflexivity|]).
  assert (makeCloudInitIso [55296] (lit "de")
          = makeCloudInitIso [65533] (lit "de")) as E
    by (rewrite !iso_shape; reflexivity).
  split; [exact E|].
  apply (image_determines_payloads [55296] (lit "de") [65533] (lit "de"));
    [vm_compute; reflexivity | vm_compute; reflexivity
    | vm_compute; reflexivity | vm_compute; reflexivity | exact E].
Defined.

(** X11. The first 19 sectors of the image (system area, both descriptors
    and the root directory) depend on the inputs only through the byte
    lengths of the two encodings. *)
Theorem structure_depends_on_lengths (u m u' m' : jsstring) :
  length (encode u) = length (encode u') ->
  length (encode m) = length (encode m') ->
  exists iso iso',
    makeCloudInitIso u m = Ok iso
    /\ makeCloudInitIso u' m' = Ok iso'
    /\ length iso = length iso'
    /\ take (19 * 2048) iso = take (19 * 2048) iso'.
Proof.
  intros Hu Hm. eexists _, _.
  split; [apply iso_shape|]. split; [apply iso_shape|].
  rewrite !length_iso_bytes, !structural_region.
  unfold total_sectors.
  rewrite (rootDir_bytes_lengths _ _ _ _ Hm Hu), Hu, Hm.
  split; reflexivity.
Qed.

Lemma structure_depends_on_lengths_witness :
  length (encode (lit "abc")) = length (encode (lit "xyz"))
  /\ length (encode (lit "de")) = length (encode (lit "DE"))
  /\ exists iso iso',
       makeCloudInitIso (lit "abc") (lit "de") = Ok iso
       /\ makeCloudInitIso (lit "xyz") (lit "DE") = Ok iso'
       /\ length iso = length iso'
       /\ take (19 * 2048) iso = take (19 * 2048) iso'.
Proof.
  split; [reflexivity|]. split; [reflexivity|].
  apply (structure_depends_on_lengths (lit "abc") (lit "de")
           (lit "xyz") (lit "DE")); reflexivity.
Defined.

(** ** The reader on any sector *)

Section ReaderInGeneral.

Lemma forallb_Forall {A} (f : A -> bool) (l : list A) :
  forallb f l = true <-> Forall (fun x => f x = true) l.
Proof.
  induction l as [|x l IH]; cbn [forallb].
  - split; [constructor | reflexivity].
  - rewrite andb_true_iff, Forall_cons, IH. reflexivity.
Qed.

Lemma parse_loop_terminates (fuel : nat) (sector : Uint8Array) (off : nat)
    (entries : list DirEntry) :
  length sector = SECTOR ->
  Forall (fun b => is_byte b = true) sector ->
  (SECTOR - off < fuel)%nat ->
  exists es,
    parse_loop fuel sector off entries = Some es
    /\ (length es <= length entries + (SECTOR - off))%nat.
Proof.
  intros Hl Hb. revert off entries.
  induction fuel as [|fuel IH]; intros off entries Hf; [lia|].
  cbn [parse_loop]. destruct (Nat.ltb_spec off SECTOR) as [Ho|Ho]; cbn [negb].
  2: { exists entries. split; [reflexivity | lia]. }
  destruct (lookup_lt_is_Some_2 sector off ltac:(lia)) as [r Hr].
  rewrite Hr.
  pose proof (proj1 (Forall_lookup _ _) Hb off r Hr) as Hrb.
  apply is_byte_spec in Hrb.
  destruct (Z.eqb_spec r 0) as [->|Hz].
  { exists entries. split; [reflexivity | lia]. }
  destruct (IH (off + Z.to_nat r)%nat
              (entries ++ [read_entry sector off r]) ltac:(lia))
    as (es & E & Hle).
  exists es. split; [exact E|].
  rewrite length_app in Hle. cbn [length] in Hle. lia.
Qed.

End ReaderInGeneral.

(** X8. The walking loop of [parseRootDir] ends on every sector that lies
    inside an array of bytes, whatever the bytes are (every turn either
    stops or advances by a record length of at least 1), and yields at
    most 2048 entries. *)
Theorem parseRootDir_terminates (iso : Uint8Array) (lba : nat) :
  ((lba + 1) * SECTOR <= length iso)%nat ->
  forallb is_byte iso = true ->
  exists entries,
    parseRootDir iso lba = Some entries
    /\ (length entries <= SECTOR)%nat.
Proof.
  intros Hl Hb. unfold parseRootDir.
  destruct (parse_loop_terminates (SECTOR + 1)
              (subarray iso (lba * SECTOR) ((lba + 1) * SECTOR)) 0 [])
    as (es & E & Hle).
  - unfold subarray. rewrite length_take, length_drop. lia.
  - unfold subarray. apply Forall_take, Forall_drop, forallb_Forall, Hb.
  - lia.
  - exists es. split; [exact E|]. cbn [length] in Hle. lia.
Qed.

Lemma parseRootDir_terminates_witness :
  ((0 + 1) * SECTOR <= length (replicate 2048 7))%nat
  /\ forallb is_byte (replicate 2048 7) = true
  /\ exists entries,
       parseRootDir (replicate 2048 7) 0 = Some entries
       /\ (length entries <= SECTOR)%nat.
Proof.
  split; [vm_compute; lia|]. split; [vm_compute; reflexivity|].
  apply (parseRootDir_terminates (replicate 2048 7) 0);
    [vm_compute; lia | vm_compute; reflexivity].
Defined.

(** X9. For every pair of inputs, looking up a name other than the four
    the root directory holds (dot, dotdot, META-DATA, USER-DATA) finds no
    entry and reads no file; in particular the lower-case names are not
    in the image. *)
Theorem missing_name_not_found (userData metaData : jsstring)
    (n : Uint8Array) :
  n <> [0] -> n <> [1] -> n <> lit "META-DATA" -> n <> lit "USER-DATA" ->
  exists iso,
    makeCloudInitIso userData metaData = Ok iso
    /\ find_entry iso n = None
    /\ extract_file iso n = None.
Proof.
  intros H0 H1 Hm Hu. eexists. split; [apply iso_shape|].
  assert (find_entry (iso_bytes (encode metaData) (encode userData)) n
          = None) as E.
  { unfold find_entry. rewrite parseRootDir_iso.
    cbn [List.find entry_of name].
    rewrite !bool_decide_eq_false_2; [reflexivity | | | |];
      intros C; symmetry in C; contradiction. }
  split; [exact E|]. unfold extract_file. rewrite E. reflexivity.
Qed.

Lemma missing_name_not_found_witness :
  lit "user-data" <> [0]
  /\ lit "user-data" <> [1]
  /\ lit "user-data" <> lit "META-DATA"
  /\ lit "user-data" <> lit "USER-DATA"
  /\ exists iso,
       makeCloudInitIso (lit "abc") (lit "de") = Ok iso
       /\ find_entry iso (lit "user-data") = None
       /\ extract_file iso (lit "user-data") = None.
Proof.
  do 4 (split; [vm_compute; discriminate|]).
  apply (missing_name_not_found (lit "abc") (lit "de") (lit "user-data"));
    vm_compute; discriminate.
Defined.

(** X10. For every pair of inputs whose UTF-8 encodings are shorter than
    2^32 bytes, the root directory read back from the image holds, in
    order: dot and dotdot (directories at LBA 18 of 2048 bytes), META-DATA
    (a file at LBA 19 whose data length is the byte length of the encoded
    meta-data) and USER-DATA (a file at LBA
    19 + max(1, ceil(|meta| / 2048)) whose data length is the byte length
    of the encoded user-data). *)
Theorem directory_reports_payloads (userData metaData : jsstring) :
  Z.of_nat (length (encode userData)) < 2 ^ 32 ->
  Z.of_nat (length (encode metaData)) < 2 ^ 32 ->
  exists iso,
    makeCloudInitIso userData metaData = Ok iso
    /\ parseRootDir iso 18
       = Some
           [ mkDirEntry [0] 18 2048 true 34 1;
             mkDirEntry [1] 18 2048 true 34 1;
             mkDirEntry (lit "META-DATA") 19
               (Z.of_nat (length (encode metaData))) false 42 9;
             mkDirEntry (lit "USER-DATA")
               (Z.of_nat
                  (19 + Nat.max 1
                          (ceil_div (length (encode metaData)) 2048)))
               (Z.of_nat (length (encode userData))) false 42 9 ].
Proof.
  intros Hu Hm. eexists. split; [apply iso_shape|].
  rewrite parseRootDir_iso. unfold entry_of.
  pose proof (ceil_div_bounds (length (encode metaData))) as Hc.
  pose proof (sectors_of_max (length (encode metaData))) as Hs.
  unfold sector_size in Hc, Hs.
  rewrite (Z.mod_small (Z.of_nat (length (encode metaData)))) by lia.
  rewrite (Z.mod_small (Z.of_nat (length (encode userData)))) by lia.
  rewrite (Z.mod_small (Z.of_nat (19 + _))) by lia.
  rewrite Hs. reflexivity.
Qed.

Lemma directory_reports_payloads_witness :
  Z.of_nat (length (encode (replicate 3000 120))) < 2 ^ 32
  /\ Z.of_nat (length (encode (replicate 2049 109))) < 2 ^ 32
  /\ exists iso,
       makeCloudInitIso (replicate 3000 120) (replicate 2049 109) = Ok iso
       /\ parseRootDir iso 18
          = Some
              [ mkDirEntry [0] 18 2048 true 34 1;
                mkDirEntry [1] 18 2048 true 34 1;
                mkDirEntry (lit "META-DATA") 19
                  (Z.of_nat (length (encode (replicate 2049 109))))
                  false 42 9;
                mkDirEntry (lit "USER-DATA")
                  (Z.of_nat
                     (19 + Nat.max 1
                             (ceil_div
                                (length (encode (replicate 2049 109)))
                                2048)))
                  (Z.of_nat (length (encode (replicate 3000 120))))
                  false 42 9 ].
Proof.
  split; [vm_compute; reflexivity|]. split; [vm_compute; reflexivity|].
  apply (directory_reports_payloads (replicate 3000 120)
           (replicate 2049 109)); vm_compute; reflexivity.
Defined.

(** X12. For every pair of inputs, the rest of the sector at LBA 16 is
    fixed: byte 7 is 0, the system identifier (bytes 8-39) and bytes
    190-812 are spaces, bytes 72-79, 88-119 and 152-155 are zero, the four
    17-byte date fields at 813, 830, 847 and 864 are sixteen '0' digits
    and a zero byte, byte 881 (file structure version) is 1 and all bytes
    from 882 on are zero; and the sector at LBA 17 is zero after its
    seven header bytes. *)
Theorem descriptor_remaining_fields (userData metaData : jsstring) :
  exists iso,
    makeCloudInitIso userData metaData = Ok iso
    /\ sector iso 16 !! 7%nat = Some 0
    /\ subarray (sector iso 16) 8 40 = replicate 32 32
    /\ subarray (sector iso 16) 72 80 = replicate 8 0
    /\ subarray (sector iso 16) 88 120 = replicate 32 0
    /\ subarray (sector iso 16) 152 156 = replicate 4 0
    /\ subarray (sector iso 16) 190 813 = replicate 623 32
    /\ subarray (sector iso 16) 813 830 = lit "0000000000000000" ++ [0]
    /\ subarray (sector iso 16) 830 847 = lit "0000000000000000" ++ [0]
    /\ subarray (sector iso 16) 847 864 = lit "0000000000000000" ++ [0]
    /\ subarray (sector iso 16) 864 881 = lit "0000000000000000" ++ [0]
    /\ sector iso 16 !! 881%nat = Some 1
    /\ drop 882 (sector iso 16) = replicate 1166 0
    /\ drop 7 (sector iso 17) = replicate 2041 0.
Proof.
  eexists. split; [apply iso_shape|].
  rewrite sector_16, sector_17.
  repeat split; reflexivity.
Qed.

(** ** The extent loop on any file table *)

Section ExtentsInGeneral.

Lemma extents_loop_acc (files : list (list Z * list Z)) (lba : nat)
    (acc : list nat) :
  extents_loop files lba acc
  = (fst (extents_loop files lba []), acc ++ snd (extents_loop files lba [])).
Proof.
  revert lba acc. induction files as [|[nm data] files IH]; intros lba acc.
  - cbn [extents_loop fst snd]. rewrite app_nil_r. reflexivity.
  - cbn [extents_loop]. rewrite (IH _ (acc ++ [lba])), (IH _ ([] ++ [lba])).
    cbn [fst snd]. rewrite <- app_assoc. reflexivity.
Qed.

Lemma extents_loop_cons (nm data : list Z) (files : list (list Z * list Z))
    (lba : nat) :
  extents_loop ((nm, data) :: files) lba []
  = (fst (extents_loop files (lba + sectors_of (length data)) []),
     lba :: snd (extents_loop files (lba + sectors_of (length data)) [])).
Proof. cbn [extents_loop]. rewrite extents_loop_acc. reflexivity. Qed.

Lemma extents_loop_grows (files : list (list Z * list Z)) (lba : nat) :
  (lba <= fst (extents_loop files lba []))%nat.
Proof.
  revert lba. induction files as [|[nm data] files IH]; intros lba.
  - reflexivity.
  - rewrite extents_loop_cons. cbn [fst].
    specialize (IH (lba + sectors_of (length data))%nat). lia.
Qed.

End ExtentsInGeneral.

(** X13. On any file table and any starting LBA, the extent loop yields
    one extent per file; every file's extent is at or after the start,
    its max(1, ceil(length / 2048)) sectors end at or before the total,
    and at or before the extent of every later file: the sector ranges of
    the files are in table order and never overlap. *)
Theorem extents_never_overlap (files : list (list Z * list Z)) (lba : nat) :
  length (snd (extents_loop files lba [])) = length files
  /\ forall i e data,
       snd (extents_loop files lba []) !! i = Some e ->
       (snd <$> files) !! i = Some data ->
       (lba <= e)%nat
       /\ (e + Nat.max 1 (ceil_div (length data) 2048)
           <= fst (extents_loop files lba []))%nat
       /\ forall j e',
            (i < j)%nat ->
            snd (extents_loop files lba []) !! j = Some e' ->
            (e + Nat.max 1 (ceil_div (length data) 2048) <= e')%nat.
Proof.
  revert lba. induction files as [|[nm d] files IH]; intros lba.
  { split; [reflexivity|]. intros i e data H. destruct i; discriminate H. }
  rewrite extents_loop_cons. cbn [fst snd length].
  destruct (IH (lba + sectors_of (length d))%nat) as [IHl IHr].
  split; [rewrite IHl; reflexivity|].
  pose proof (sectors_of_max (length d)) as Hs. unfold sector_size in Hs.
  pose proof (extents_loop_grows files (lba + sectors_of (length d))) as Hg.
  intros i e data He Hd. destruct i as [|i].
  - cbn in He, Hd. injection He as <-. injection Hd as <-.
    split; [lia|]. split; [lia|].
    intros j e' Hj He'. destruct j as [|j]; [lia|]. cbn in He'.
    pose proof (lookup_lt_Some _ _ _ He') as Hlt.
    rewrite IHl in Hlt.
    destruct (lookup_lt_is_Some_2 (snd <$> files) j) as [d' Hd'];
      [rewrite length_fmap; exact Hlt|].
    destruct (IHr j e' d' He' Hd') as [Hlo _]. lia.
  - cbn in He, Hd. destruct (IHr i e data He Hd) as (Hlo & Hhi & Hlater).
    split; [lia|]. split; [exact Hhi|].
    intros j e' Hj He'. destruct j as [|j]; [lia|]. cbn in He'.
    apply (Hlater j e'); [lia | exact He'].
Qed.

(** ** The reader's integers on any bytes *)

Section Decoders.

Lemma get_is_byte (buf : Uint8Array) (i : nat) :
  forallb is_byte buf = true -> 0 <= get buf i < 256.
Proof.
  intros Hb. unfold get. destruct (buf !! i) as [b|] eqn:E; cbn; [|lia].
  apply is_byte_spec.
  exact (proj1 (Forall_lookup _ _) (proj1 (forallb_Forall _ _) Hb) i b E).
Qed.

Lemma le32_of_bytes (b0 b1 b2 b3 : Z) :
  0 <= b0 < 256 -> 0 <= b1 < 256 -> 0 <= b2 < 256 -> 0 <= b3 < 256 ->
  ToUint32 (bor (bor (bor b0 (shl b1 8)) (shl b2 16)) (shl b3 24))
  = b0 + 256 * b1 + 65536 * b2 + 16777216 * b3.
Proof.
  intros H0 H1 H2 H3.
  set (v := b0 + 256 * b1 + 65536 * b2 + 16777216 * b3).
  assert (v mod 256 = b0) as E0
    by (unfold v; Z.div_mod_to_equations; lia).
  assert ((v / 2 ^ 8) mod 256 = b1) as E1
    by (unfold v; change (2 ^ 8) with 256; Z.div_mod_to_equations; lia).
  assert ((v / 2 ^ 16) mod 256 = b2) as E2
    by (unfold v; change (2 ^ 16) with 65536;
        Z.div_mod_to_equations; lia).
  assert ((v / 2 ^ 24) mod 256 = b3) as E3
    by (unfold v; change (2 ^ 24) with 16777216;
        Z.div_mod_to_equations; lia).
  pose proof (combine_le32 v) as C. rewrite E0, E1, E2, E3 in C.
  rewrite C. apply Z.mod_small. unfold v. lia.
Qed.

Lemma le16_of_bytes (b0 b1 : Z) :
  0 <= b0 < 256 -> 0 <= b1 < 256 ->
  bor b0 (shl b1 8) = b0 + 256 * b1.
Proof.
  intros H0 H1. set (v := b0 + 256 * b1).
  assert (v mod 256 = b0) as E0
    by (unfold v; Z.div_mod_to_equations; lia).
  assert ((v / 2 ^ 8) mod 256 = b1) as E1
    by (unfold v; change (2 ^ 8) with 256; Z.div_mod_to_equations; lia).
  pose proof (combine_le16 v) as C. rewrite E0, E1 in C.
  rewrite C. apply Z.mod_small. unfold v. lia.
Qed.

End Decoders.

(** X15. On any array of bytes and at any offset, [u32le] is the
    little-endian value of the four bytes at the offset, in 0 .. 2^32-1
    (also when the top byte is 128 or more), [u16le] and [u16be] are the
    little- and big-endian values of two bytes; a byte past the end of the
    array counts as 0. *)
Theorem reader_integers (buf : Uint8Array) (off : nat) :
  forallb is_byte buf = true ->
  u32le buf off
  = get buf off + 256 * get buf (off + 1) + 65536 * get buf (off + 2)
    + 16777216 * get buf (off + 3)
  /\ 0 <= u32le buf off < 2 ^ 32
  /\ u16le buf off = get buf off + 256 * get buf (off + 1)
  /\ u16be buf off = 256 * get buf off + get buf (off + 1)
  /\ ((length buf <= off)%nat -> u32le buf off = 0).
Proof.
  intros Hb.
  pose proof (get_is_byte buf off Hb) as H0.
  pose proof (get_is_byte buf (off + 1) Hb) as H1.
  pose proof (get_is_byte buf (off + 2) Hb) as H2.
  pose proof (get_is_byte buf (off + 3) Hb) as H3.
  assert (u32le buf off
          = get buf off + 256 * get buf (off + 1)
            + 65536 * get buf (off + 2) + 16777216 * get buf (off + 3)) as E
    by (apply le32_of_bytes; assumption).
  split; [exact E|]. split; [rewrite E; lia|].
  split; [apply le16_of_bytes; assumption|].
  split.
  - unfold u16be, bor. rewrite Z.lor_comm.
    apply (le16_of_bytes (get buf (off + 1)) (get buf off)) in H1 as C;
      [|assumption].
    unfold bor in C. rewrite C. lia.
  - intros Hl. rewrite E. unfold get.
    rewrite !lookup_ge_None_2 by lia. reflexivity.
Qed.

Lemma reader_integers_witness :
  forallb is_byte [1; 2; 3; 200; 5] = true
  /\ u32le [1; 2; 3; 200; 5] 0
     = get [1; 2; 3; 200; 5] 0 + 256 * get [1; 2; 3; 200; 5] (0 + 1)
       + 65536 * get [1; 2; 3; 200; 5] (0 + 2)
       + 16777216 * get [1; 2; 3; 200; 5] (0 + 3)
  /\ 0 <= u32le [1; 2; 3; 200; 5] 0 < 2 ^ 32
  /\ u16le [1; 2; 3; 200; 5] 0
     = get [1; 2; 3; 200; 5] 0 + 256 * get [1; 2; 3; 200; 5] (0 + 1)
  /\ u16be [1; 2; 3; 200; 5] 0
     = 256 * get [1; 2; 3; 200; 5] 0 + get [1; 2; 3; 200; 5] (0 + 1)
  /\ ((length [1; 2; 3; 200; 5] <= 0)%nat -> u32le [1; 2; 3; 200; 5] 0 = 0).
Proof.
  split; [vm_compute; reflexivity|].
  apply (reader_integers [1; 2; 3; 200; 5] 0). vm_compute. reflexivity.
Defined.

(** ** Encoding text that is put together from pieces *)

Section EncodePieces.

Lemma encode_ascii_prefix (a t : jsstring) :
  forallb is_ascii a = true -> encode (a ++ t) = a ++ encode t.
Proof.
  induction a as [|c a IH]; [reflexivity|].
  cbn [forallb]. rewrite andb_true_iff. intros [Hc Ha].
  unfold is_ascii in Hc. apply andb_true_iff in Hc.
  rewrite Z.leb_le, Z.ltb_lt in Hc.
  rewrite <- app_comm_cons. cbn [encode].
  assert (is_high_surrogate c = false) as ->
    by (unfold is_high_surrogate; apply andb_false_iff; left;
        apply Z.leb_gt; lia).
  assert (is_low_surrogate c = false) as ->
    by (unfold is_low_surrogate; apply andb_false_iff; left;
        apply Z.leb_gt; lia).
  unfold utf8_bytes. rewrite (proj2 (Z.ltb_lt c 128)) by lia.
  rewrite (IH Ha). reflexivity.
Qed.

(** Encoding distributes over a concatenation whose second part does not
    start with a low surrogate. *)
Lemma encode_app_bounded (n : nat) (s t : jsstring) :
  (length s <= n)%nat ->
  match t with [] => True | x :: _ => is_low_surrogate x = false end ->
  encode (s ++ t) = encode s ++ encode t.
Proof.
  revert s. induction n as [|n IH]; intros s Hl Ht.
  { destruct s; [reflexivity | cbn [length] in Hl; lia]. }
  destruct s as [|c rest]; [reflexivity|].
  cbn [length] in Hl. rewrite <- app_comm_cons. cbn [encode].
  destruct (is_high_surrogate c).
  - destruct rest as [|d rest'].
    + cbn [app]. destruct t as [|x t']; [reflexivity|].
      rewrite Ht. reflexivity.
    + rewrite <- app_comm_cons. cbn [length] in Hl.
      destruct (is_low_surrogate d).
      * rewrite (IH rest') by (lia || assumption).
        rewrite app_assoc. reflexivity.
      * rewrite app_comm_cons, (IH (d :: rest')) by (cbn [length]; lia || assumption).
        rewrite app_assoc. reflexivity.
  - destruct (is_low_surrogate c);
      rewrite (IH rest) by (lia || assumption);
      rewrite app_assoc; reflexivity.
Qed.

Lemma encode_before_newline (s t : jsstring) :
  encode (s ++ [10] ++ t) = encode s ++ [10] ++ encode t.
Proof.
  rewrite (encode_app_bounded (length s)) by (reflexivity || lia).
  rewrite (encode_ascii_prefix [10]) by reflexivity. reflexivity.
Qed.

Lemma encode_before_last_newline (s : jsstring) :
  encode (s ++ [10]) = encode s ++ [10].
Proof.
  rewrite (encode_app_bounded (length s)) by (reflexivity || lia).
  reflexivity.
Qed.




End EncodePieces.

(** X14. The seed data of the provision method, encoded, is the text of
    its templates with the UTF-8 encoding of each argument in its place:
    no argument changes the bytes of its neighbours, whatever code units
    it holds. The meta-data has 31 bytes more than twice the encoded
    name. *)
Theorem provision_seed_data_encoding (name username sshPublicKey : jsstring) :
  encode (Provision.metaData name)
  = lit "instance-id: " ++ encode name ++ [10]
      ++ lit "local-hostname: " ++ encode name ++ [10]
  /\ length (encode (Provision.metaData name))
     = (31 + 2 * length (encode name))%nat
  /\ encode (Provision.userData name username sshPublicKey)
     = lit "#cloud-config" ++ [10]
         ++ lit "hostname: " ++ encode name ++ [10]
         ++ lit "users:" ++ [10]
         ++ lit "  - name: " ++ encode username ++ [10]
         ++ lit "    ssh_authorized_keys:" ++ [10]
         ++ lit "      - " ++ encode sshPublicKey ++ [10]
         ++ lit "    sudo: ALL=(ALL) NOPASSWD:ALL" ++ [10]
         ++ lit "    shell: /bin/bash" ++ [10]
         ++ lit "package_update: true" ++ [10]
         ++ lit "packages:" ++ [10]
         ++ lit "  - qemu-guest-agent" ++ [10]
         ++ lit "runcmd:" ++ [10]
         ++ lit "  - systemctl enable qemu-guest-agent" ++ [10]
         ++ lit "  - systemctl start qemu-guest-agent" ++ [10].
Proof.
  assert (encode (Provision.metaData name)
          = lit "instance-id: " ++ encode name ++ [10]
              ++ lit "local-hostname: " ++ encode name ++ [10]) as E.
  { unfold Provision.metaData.
    rewrite encode_ascii_prefix, encode_before_newline by reflexivity.
    rewrite encode_ascii_prefix, encode_before_last_newline by reflexivity.
    reflexivity. }
  split; [exact E|]. split.
  { rewrite E, !length_app. cbn [length].
    change (length (lit "instance-id: ")) with 13%nat.
    change (length (lit "local-hostname: ")) with 16%nat. lia. }
  unfold Provision.userData.
  repeat (rewrite encode_ascii_prefix by reflexivity;
          rewrite ?encode_before_newline).
  reflexivity.
Qed.


